(** * LevelUp ATS API: a shallow embedding of [main.py] and [schemas.py]

    The API is a set of FastAPI handlers over a document store.  Python
    values are embedded as the inductive [value]; Python dicts keep their
    insertion order (association lists); the store is an explicit state
    threaded through every handler; exceptions are a sum type.

    What the repository does not contain is either a parameter of the
    development (the validators of Pydantic for [int], [datetime] and
    [EmailStr], the parser of [bson.ObjectId]) or, for the adapter module
    [database], a definition written from the specification and marked as
    such. *)

From Stdlib Require Import ZArith NArith List String Ascii Bool Lia.
From stdpp Require Import base option list gmap strings.
Import ListNotations.

Set Warnings "-register-all".
Local Open Scope string_scope.
Local Open Scope list_scope.

(** ** Python values *)

(** JSON request bodies after [json.loads], the result of [model_dump] and
    the fields of stored documents all live in one type.  A float is carried
    by its binary64 bit pattern (the program never computes with one); a
    [datetime] by its microseconds since the epoch. *)
Inductive value : Type :=
| VNull
| VBool (b : bool)
| VInt (z : Z)
| VFloat (bits : Z)
| VStr (s : string)
| VList (l : list value)
| VDict (kvs : list (string * value))
| VDate (t : Z).

(** A Python [dict] with string keys, in insertion order. *)
Abbreviation dict := (list (string * value)).

(** [d.get(k)] *)
Fixpoint dict_get (k : string) (d : dict) : option value :=
  match d with
  | [] => None
  | (k', v) :: d' => if String.eqb k k' then Some v else dict_get k d'
  end.

(** [d[k] = v]: an existing key keeps its position, a new key goes last. *)
Fixpoint dict_set (k : string) (v : value) (d : dict) : dict :=
  match d with
  | [] => [(k, v)]
  | (k', v') :: d' =>
      if String.eqb k k' then (k, v) :: d' else (k', v') :: dict_set k v d'
  end.

(** [{**d, **u}] and Mongo's [$set]: the keys of [u] are written in order. *)
Definition dict_update (u d : dict) : dict :=
  fold_left (fun acc kv => dict_set (fst kv) (snd kv) acc) u d.

Definition timedelta_us (days hours : Z) : Z :=
  ((days * 24 + hours) * 3600 * 1000000)%Z.

(** ** Object identifiers *)

(** A [bson.ObjectId] is twelve bytes; [oid] is their big-endian value. *)
Definition oid := N.

Definition hex_digit (n : N) : ascii :=
  match n with
  | 0 => "0" | 1 => "1" | 2 => "2" | 3 => "3"
  | 4 => "4" | 5 => "5" | 6 => "6" | 7 => "7"
  | 8 => "8" | 9 => "9" | 10 => "a" | 11 => "b"
  | 12 => "c" | 13 => "d" | 14 => "e" | _ => "f"
  end%N%char.

Fixpoint hex_digits (k : nat) (n : N) : list ascii :=
  match k with
  | O => []
  | S k' => hex_digits k' (n / 16)%N ++ [hex_digit (n mod 16)%N]
  end.

(** [str(oid)]: twenty-four lower-case hexadecimal digits. *)
Definition oid_str (o : oid) : string :=
  string_of_list_ascii (hex_digits 24 o).

Definition hex_value (c : ascii) : option N :=
  let n := N_of_ascii c in
  if ((48 <=? n) && (n <=? 57))%N then Some (n - 48)%N
  else if ((97 <=? n) && (n <=? 102))%N then Some (n - 87)%N
  else if ((65 <=? n) && (n <=? 70))%N then Some (n - 55)%N
  else None.

Fixpoint hex_parse (acc : N) (cs : list ascii) : option N :=
  match cs with
  | [] => Some acc
  | c :: cs' =>
      match hex_value c with
      | Some v => hex_parse (16 * acc + v)%N cs'
      | None => None
      end
  end.

(** The instance of the [ObjectId] parser used in the worked examples: a
    string of exactly twenty-four hexadecimal digits. *)
Definition ObjectId_hex (s : string) : option oid :=
  if Nat.eqb (String.length s) 24 then hex_parse 0%N (list_ascii_of_string s)
  else None.

(** ** The document store *)

Record document : Type := { _id : oid; fields : dict }.

(** [down = Some msg]: the handle exists but every call on it raises (the
    server cannot be reached). *)
Record database : Type := {
  collections : gmap string (list document);
  next_oid : oid;
  down : option string;
}.

Inductive exn : Type :=
| HTTPException (status_code : Z) (detail : string)
| InvalidId (msg : string)
| PyMongoError (msg : string)
| TypeError (msg : string)
| DatabaseNotAvailable.

(** [str(e)] *)
Definition exn_str (e : exn) : string :=
  match e with
  | HTTPException _ d => d
  | InvalidId m => m
  | PyMongoError m => m
  | TypeError m => m
  | DatabaseNotAvailable => "Database not available"
  end.

(** Python code running against the module-level handle [db].

    Modelled from the spec: [database.db] is not among the sources; it is
    [None] when no store connection exists and a live handle otherwise, and
    the tests [db is None] and [if db] tell exactly these two apart.

    A computation takes the handle, returns a value or raises, and leaves
    the handle (with whatever it wrote before raising). *)
Definition py (A : Type) : Type :=
  option database -> (exn + A) * option database.

#[export] Instance py_ret : MRet py := fun A a w => (inr a, w).

#[export] Instance py_bind : MBind py :=
  fun A B k m w => match m w with
                   | (inl e, w') => (inl e, w')
                   | (inr a, w') => k a w'
                   end.

Definition raise {A} (e : exn) : py A := fun w => (inl e, w).

(** [try: m except Exception as e: h e] *)
Definition try_except {A} (m : py A) (h : exn -> py A) : py A :=
  fun w => match m w with
           | (inl e, w') => h e w'
           | (inr a, w') => (inr a, w')
           end.

(** Reading the global [db]. *)
Definition db : py (option database) := fun w => (inr w, w).

Definition put (d : database) : py unit := fun _ => (inr tt, Some d).

(** Every call on [db[...]] starts by reaching the server. *)
Definition reach : py database :=
  w ← db;
  match w with
  | None => raise (TypeError "'NoneType' object is not subscriptable")
  | Some d =>
      match down d with
      | Some msg => raise (PyMongoError msg)
      | None => mret d
      end
  end.

(** [db[c]]: the documents of a collection, in natural order; a collection
    that was never written is empty. *)
Definition coll (d : database) (c : string) : list document :=
  default [] (collections d !! c).

Definition set_coll (c : string) (docs : list document) (d : database) : database :=
  {| collections := <[c := docs]> (collections d);
     next_oid := next_oid d;
     down := down d |}.

(** The query documents that [main.py] writes. *)
Inductive cond : Type :=
| CEq (s : string)            (* {"k": "s"} *)
| CIn (ss : list string)      (* {"k": {"$in": [...]}} *)
| CNin (ss : list string).    (* {"k": {"$nin": [...]}} *)

Inductive query : Type :=
| QAll                          (* {} *)
| QField (k : string) (c : cond)
| QId (o : oid).                (* {"_id": ObjectId} *)

(** Mongo's equality against a string operand: the stored value is that
    string, or an array with that string among its elements. *)
Definition is_str (s : string) (v : value) : bool :=
  match v with
  | VStr t => String.eqb s t
  | _ => false
  end.

Definition str_matches (s : string) (v : value) : bool :=
  match v with
  | VList l => existsb (is_str s) l
  | _ => is_str s v
  end.

Definition cond_matches (c : cond) (fv : option value) : bool :=
  match c with
  | CEq s => match fv with Some v => str_matches s v | None => false end
  | CIn ss =>
      match fv with
      | Some v => existsb (fun s => str_matches s v) ss
      | None => false
      end
  | CNin ss =>
      match fv with
      | Some v => negb (existsb (fun s => str_matches s v) ss)
      | None => true
      end
  end.

Definition matches (q : query) (x : document) : bool :=
  match q with
  | QAll => true
  | QField k c => cond_matches c (dict_get k (fields x))
  | QId o => N.eqb (_id x) o
  end.

(** [db[c].count_documents(q)] *)
Definition count_documents (c : string) (q : query) : py nat :=
  d ← reach; mret (length (List.filter (matches q) (coll d c))).

(** [db[c].find_one(q)] *)
Definition find_one (c : string) (q : query) : py (option document) :=
  d ← reach; mret (List.find (matches q) (coll d c)).

(** [db[c].find(q)] read to the end. *)
Definition find (c : string) (q : query) : py (list document) :=
  d ← reach; mret (List.filter (matches q) (coll d c)).

(** The store after it stored [payload] in [c]: the document gets the next
    identifier and goes last in the collection. *)
Definition add_document (c : string) (payload : dict) (d : database) : database :=
  {| collections :=
       <[c := coll d c ++ [{| _id := next_oid d; fields := payload |}]]>
         (collections d);
     next_oid := (next_oid d + 1)%N;
     down := down d |}.

(** [db[c].insert_one(payload).inserted_id] *)
Definition insert_one (c : string) (payload : dict) : py oid :=
  d ← reach;
  put (add_document c payload d);;
  mret (next_oid d).

Fixpoint update_first (p : document -> bool) (f : document -> document)
    (l : list document) : list document :=
  match l with
  | [] => []
  | x :: l' => if p x then f x :: l' else x :: update_first p f l'
  end.

Definition apply_set (u : dict) (x : document) : document :=
  {| _id := _id x; fields := dict_update u (fields x) |}.

(** [db[c].update_one(q, {"$set": u})]: the first matching document is
    patched; with no match nothing is written.  The result is the matched
    count. *)
Definition update_one (c : string) (q : query) (u : dict) : py nat :=
  d ← reach;
  if existsb (matches q) (coll d c)
  then put (set_coll c (update_first (matches q) (apply_set u) (coll d c)) d);;
       mret 1
  else mret 0.

(** ** Pydantic models *)

(** The annotations that occur in [main.py] and [schemas.py]. *)
Inductive ftype : Type :=
| TStr                          (* str *)
| TInt (ge : option Z)          (* int, Field(ge=...) *)
| TDatetime                     (* datetime *)
| TEmailStr                     (* EmailStr *)
| TLiteral (vs : list string)   (* Literal[...] *)
| TAny                          (* Any *)
| TOptional (t : ftype)         (* Optional[t] *)
| TList (t : ftype)             (* List[t] *)
| TDict (t : ftype).            (* Dict[str, t]; dict is Dict[str, Any] *)

(** A field declaration; [default = None] is a required field. *)
Record field : Type := Field {
  name : string;
  annotation : ftype;
  default_value : option value;
}.

Abbreviation model := (list field).

Inductive verror : Type :=
| Missing (loc : string)
| Invalid (loc : string)
| NotAnObject.

(** *** Request models of [main.py] *)

Definition JobIn : model :=
  [ Field "title" TStr None;
    Field "department" TStr None;
    Field "location" TStr (Some (VStr "Remote"));
    Field "status" TStr (Some (VStr "open"));
    Field "owner" TStr None;
    Field "description" (TOptional TStr) (Some VNull) ].

Definition CandidateIn : model :=
  [ Field "name" TStr None;
    Field "email" TStr None;
    Field "phone" (TOptional TStr) (Some VNull);
    Field "current_role" (TOptional TStr) (Some VNull);
    Field "stage" TStr (Some (VStr "applied"));
    Field "resume_url" (TOptional TStr) (Some VNull);
    Field "skills" (TList TStr) (Some (VList []));
    Field "assessment_scores" (TOptional (TDict TAny)) (Some VNull);
    Field "notes" (TOptional TStr) (Some VNull);
    Field "job_id" (TOptional TStr) (Some VNull);
    Field "salary_expectation" (TOptional TStr) (Some VNull);
    Field "avatar_url" (TOptional TStr) (Some VNull) ].

Definition InterviewIn : model :=
  [ Field "candidate_id" TStr None;
    Field "candidate_name" TStr None;
    Field "interviewer" TStr None;
    Field "time" TDatetime None;
    Field "status" TStr (Some (VStr "scheduled"));
    Field "meeting_url" (TOptional TStr) (Some VNull) ].

Definition FeedbackIn : model :=
  [ Field "interview_id" TStr None;
    Field "candidate_id" TStr None;
    Field "ratings" (TDict (TInt None)) None;
    Field "recommendation" TStr None;
    Field "comments" (TOptional TStr) (Some VNull) ].

Definition OfferIn : model :=
  [ Field "candidate_id" TStr None;
    Field "candidate_name" TStr None;
    Field "role" TStr None;
    Field "proposed_salary" TStr None;
    Field "status" TStr (Some (VStr "draft"));
    Field "template_name" (TOptional TStr) (Some VNull) ].

Definition OnboardingTaskIn : model :=
  [ Field "candidate_id" TStr None;
    Field "task" TStr None;
    Field "assignee" TStr (Some (VStr "HR"));
    Field "status" TStr (Some (VStr "pending")) ].

Definition MessageIn : model :=
  [ Field "sender" TStr None;
    Field "receiver" TStr None;
    Field "content" TStr None ].

Definition StageUpdate : model := [ Field "stage" TStr None ].

Definition OfferStatus : model := [ Field "status" TStr None ].

(** *** Collection schemas of [schemas.py] *)

Module schemas.

Definition Job : model :=
  [ Field "title" TStr None;
    Field "department" TStr None;
    Field "location" TStr (Some (VStr "Remote"));
    Field "status" (TLiteral ["draft"; "open"; "paused"; "closed"]) (Some (VStr "open"));
    Field "owner" TStr None;
    Field "description" (TOptional TStr) (Some VNull);
    Field "applicants_count" (TInt (Some 0%Z)) (Some (VInt 0));
    Field "date_posted" (TOptional TDatetime) (Some VNull) ].

Definition Candidate : model :=
  [ Field "name" TStr None;
    Field "email" TEmailStr None;
    Field "phone" (TOptional TStr) (Some VNull);
    Field "current_role" (TOptional TStr) (Some VNull);
    Field "stage"
      (TLiteral ["applied"; "screening"; "interview"; "offer"; "hired"; "rejected"])
      (Some (VStr "applied"));
    Field "resume_url" (TOptional TStr) (Some VNull);
    Field "skills" (TList TStr) (Some (VList []));
    Field "assessment_scores" (TOptional (TDict TAny)) (Some (VDict []));
    Field "notes" (TOptional TStr) (Some VNull);
    Field "job_id" (TOptional TStr) (Some VNull);
    Field "salary_expectation" (TOptional TStr) (Some VNull);
    Field "avatar_url" (TOptional TStr) (Some VNull) ].

Definition Interview : model :=
  [ Field "candidate_id" TStr None;
    Field "candidate_name" TStr None;
    Field "interviewer" TStr None;
    Field "time" TDatetime None;
    Field "status" (TLiteral ["scheduled"; "completed"; "cancelled"])
      (Some (VStr "scheduled"));
    Field "meeting_url" (TOptional TStr) (Some VNull) ].

Definition Feedback : model :=
  [ Field "interview_id" TStr None;
    Field "candidate_id" TStr None;
    Field "ratings" (TDict TAny)
      (Some (VDict [("technical", VInt 0); ("culture", VInt 0);
                    ("communication", VInt 0)]));
    Field "recommendation" (TLiteral ["proceed"; "reject"; "hold"])
      (Some (VStr "hold"));
    Field "comments" (TOptional TStr) (Some VNull) ].

Definition Offer : model :=
  [ Field "candidate_id" TStr None;
    Field "candidate_name" TStr None;
    Field "role" TStr None;
    Field "proposed_salary" TStr None;
    Field "status"
      (TLiteral ["draft"; "routing"; "approved"; "sent"; "accepted"; "declined"])
      (Some (VStr "draft"));
    Field "template_name" (TOptional TStr) (Some VNull) ].

Definition OnboardingTask : model :=
  [ Field "candidate_id" TStr None;
    Field "task" TStr None;
    Field "assignee" (TLiteral ["HR"; "IT"; "Admin"]) (Some (VStr "HR"));
    Field "status" (TLiteral ["pending"; "in_progress"; "done"])
      (Some (VStr "pending")) ].

Definition Message : model :=
  [ Field "sender" TStr None;
    Field "receiver" TStr None;
    Field "content" TStr None;
    Field "timestamp" (TOptional TDatetime) (Some VNull) ].

End schemas.

(** The declared value sets: the fields of a schema annotated [Literal]. *)
Fixpoint enumerated_fields (m : model) : list (string * list string) :=
  match m with
  | [] => []
  | f :: m' =>
      match annotation f with
      | TLiteral vs => (name f, vs) :: enumerated_fields m'
      | _ => enumerated_fields m'
      end
  end.

(** An annotation under which a valid input is kept as it is. *)
Fixpoint verbatim (t : ftype) : bool :=
  match t with
  | TStr | TAny | TLiteral _ => true
  | TOptional t' | TList t' | TDict t' => verbatim t'
  | TInt _ | TDatetime | TEmailStr => false
  end.

(** ** The HTTP surface *)

Inductive response : Type :=
| OK (content : value)                          (* 200 *)
| Unprocessable (errors : list verror)          (* 422, request validation *)
| Failure (status_code : Z) (detail : string).  (* HTTPException, or 500 *)

Definition status_of (r : response) : Z :=
  match r with
  | OK _ => 200
  | Unprocessable _ => 422
  | Failure s _ => s
  end.

(** What FastAPI answers when the handler returns or raises. *)
Definition respond (r : exn + value) : response :=
  match r with
  | inr v => OK v
  | inl (HTTPException s d) => Failure s d
  | inl _ => Failure 500 "Internal Server Error"
  end.

Abbreviation endpoint := (option database -> response * option database).

Definition serve (h : py value) : endpoint :=
  fun w => let (r, w') := h w in (respond r, w').

(** The routes of [app] that the development covers. *)
Inductive request : Type :=
| POST_api_seed
| GET_api_metrics
| GET_api_jobs
| POST_api_jobs (body : value)
| GET_api_candidates
| POST_api_candidates (body : value)
| POST_api_candidates_stage (candidate_id : string) (body : value)
| GET_api_interviews
| POST_api_interviews (body : value)
| POST_api_interviews_feedback (interview_id : string) (body : value)
| GET_api_offers
| POST_api_offers (body : value)
| POST_api_offers_status (offer_id : string) (body : value)
| GET_api_onboarding
| POST_api_onboarding (body : value)
| GET_api_messages
| POST_api_messages (body : value).

(** The seven collections, as [get_schema_info] lists them. *)
Inductive entity : Type :=
| job | candidate | interview | feedback | offer | onboardingtask | message.

Definition collection_of (e : entity) : string :=
  match e with
  | job => "job"
  | candidate => "candidate"
  | interview => "interview"
  | feedback => "feedback"
  | offer => "offer"
  | onboardingtask => "onboardingtask"
  | message => "message"
  end.

Definition request_model (e : entity) : model :=
  match e with
  | job => JobIn
  | candidate => CandidateIn
  | interview => InterviewIn
  | feedback => FeedbackIn
  | offer => OfferIn
  | onboardingtask => OnboardingTaskIn
  | message => MessageIn
  end.

Definition schema_of (e : entity) : model :=
  match e with
  | job => schemas.Job
  | candidate => schemas.Candidate
  | interview => schemas.Interview
  | feedback => schemas.Feedback
  | offer => schemas.Offer
  | onboardingtask => schemas.OnboardingTask
  | message => schemas.Message
  end.

(** The create route of an entity; feedback is created under an interview,
    whose id is the path parameter. *)
Definition create_request (e : entity) (path_id : string) (body : value) : request :=
  match e with
  | job => POST_api_jobs body
  | candidate => POST_api_candidates body
  | interview => POST_api_interviews body
  | feedback => POST_api_interviews_feedback path_id body
  | offer => POST_api_offers body
  | onboardingtask => POST_api_onboarding body
  | message => POST_api_messages body
  end.

(** The list route of an entity; feedback has none. *)
Definition list_request (e : entity) : option request :=
  match e with
  | job => Some GET_api_jobs
  | candidate => Some GET_api_candidates
  | interview => Some GET_api_interviews
  | feedback => None
  | offer => Some GET_api_offers
  | onboardingtask => Some GET_api_onboarding
  | message => Some GET_api_messages
  end.

(** The field [k] of a document holds one of the strings [ss]. *)
Definition field_in (k : string) (ss : list string) (x : document) : bool :=
  match dict_get k (fields x) with
  | Some (VStr t) => existsb (fun s => String.eqb s t) ss
  | _ => false
  end.

(** The field [k] of a document, when present, is not an array. *)
Definition scalar_field (k : string) (x : document) : Prop :=
  match dict_get k (fields x) with
  | Some (VList _) => False
  | _ => True
  end.

(** The stage of every candidate and the status of every offer is a
    scalar. *)
Definition scalar_store (d : database) : Prop :=
  Forall (scalar_field "stage") (coll d "candidate") /\
  Forall (scalar_field "status") (coll d "offer").

(** A store that answers, whose identifiers fit twelve bytes and were all
    issued before [next_oid]. *)
Definition healthy (d : database) : Prop :=
  down d = None /\
  (next_oid d < 2 ^ 96)%N /\
  forall c x, In x (coll d c) -> (_id x < next_oid d)%N.

(** ** What the libraries decide *)

(** Pydantic's lax validation of [int] and of [datetime], the validation
    (and normalisation) of [EmailStr], and the parsing of a string by
    [bson.ObjectId] are not part of the repository: the development is
    parametric in them. *)
Record library : Type := {
  int_lax : value -> option Z;
  datetime_lax : value -> option Z;
  email_validate : string -> option string;
  ObjectId : string -> option oid;
}.

(** *** An instance for the worked examples *)

(** Reading a decimal integer: an optional sign, then digits only. *)
Definition digit_value (c : ascii) : option Z :=
  let n := Z.of_N (N_of_ascii c) in
  if ((48 <=? n) && (n <=? 57))%Z then Some (n - 48)%Z else None.

Fixpoint digits_value (acc : Z) (cs : list ascii) : option Z :=
  match cs with
  | [] => Some acc
  | c :: cs' =>
      match digit_value c with
      | Some v => digits_value (10 * acc + v)%Z cs'
      | None => None
      end
  end.

Definition decimal_value (s : string) : option Z :=
  match list_ascii_of_string s with
  | [] => None
  | c :: cs =>
      if Ascii.eqb c "-"%char
      then match cs with
           | [] => None
           | _ :: _ => Z.opp <$> digits_value 0 cs
           end
      else if Ascii.eqb c "+"%char
      then match cs with
           | [] => None
           | _ :: _ => digits_value 0 cs
           end
      else digits_value 0 (c :: cs)
  end.

(** The integer that a binary64 bit pattern stands for, when it stands for
    one below 2^63 in magnitude. *)
Definition float_integer (bits : Z) : option Z :=
  let negative := Z.testbit bits 63 in
  let e := Z.land (Z.shiftr bits 52) 2047 in
  let m := Z.land bits (2 ^ 52 - 1) in
  let magnitude :=
    if (e =? 2047)%Z then None
    else if (e =? 0)%Z then (if (m =? 0)%Z then Some 0%Z else None)
    else
      let significand := (2 ^ 52 + m)%Z in
      if (1075 <=? e)%Z then Some (significand * 2 ^ (e - 1075))%Z
      else if (significand mod 2 ^ (1075 - e) =? 0)%Z
           then Some (significand / 2 ^ (1075 - e))%Z
           else None in
  match magnitude with
  | Some v =>
      if (v <? 2 ^ 63)%Z then Some (if negative then (- v)%Z else v) else None
  | None => None
  end.

(** An [int] validator in Pydantic's lax mode, on the inputs it takes here:
    an integer as it is, a boolean as 0 or 1, a float without fractional
    part as that integer, a string of decimal digits with an optional sign
    as the integer it writes.  Anything else is refused. *)
Definition int_of_json (v : value) : option Z :=
  match v with
  | VInt z => Some z
  | VBool b => Some (if b then 1 else 0)%Z
  | VFloat bits => float_integer bits
  | VStr s => decimal_value s
  | _ => None
  end.

(** A [datetime] validator that takes a JSON integer as a Unix time: in
    seconds up to 2e10 in magnitude, in milliseconds beyond. *)
Definition datetime_of_seconds (v : value) : option Z :=
  match v with
  | VInt z =>
      if (Z.abs z <=? 20000000000)%Z then Some (z * 1000000)%Z
      else Some (z * 1000)%Z
  | _ => None
  end.

Definition has_at (s : string) : bool :=
  existsb (Ascii.eqb "@"%char) (list_ascii_of_string s).

(** An e-mail validator that asks for an [@] and nothing more.  Every
    syntactically valid address has one. *)
Definition email_with_at (s : string) : option string :=
  if has_at s then Some s else None.

(** The library instance of the worked examples. *)
Definition demo : library :=
  {| int_lax := int_of_json;
     datetime_lax := datetime_of_seconds;
     email_validate := email_with_at;
     ObjectId := ObjectId_hex |}.

(** *** Worked inputs *)

Definition empty_db : database :=
  {| collections := ∅; next_oid := 0%N; down := None |}.

Definition noon (k : nat) : Z := (1700000000000000 + Z.of_nat k)%Z.

Definition qa_job : dict :=
  [ ("title", VStr "QA Engineer"); ("department", VStr "Engineering");
    ("owner", VStr "Sam") ].

(** Proves [In x l] for a literal [l], trying the members in order. *)
Ltac pick_member := (left; reflexivity) + (right; pick_member).

Section Api.

Variable lib : library.

(** *** Validation *)

Fixpoint validate_type (t : ftype) (v : value) {struct t} : option value :=
  match t with
  | TStr => match v with VStr _ => Some v | _ => None end
  | TInt ge =>
      z ← int_lax lib v;
      match ge with
      | Some lo => if (lo <=? z)%Z then Some (VInt z) else None
      | None => Some (VInt z)
      end
  | TDatetime => VDate <$> datetime_lax lib v
  | TEmailStr =>
      match v with
      | VStr s => VStr <$> email_validate lib s
      | _ => None
      end
  | TLiteral vs =>
      match v with
      | VStr s => if existsb (String.eqb s) vs then Some v else None
      | _ => None
      end
  | TAny => Some v
  | TOptional t' =>
      match v with
      | VNull => Some VNull
      | _ => validate_type t' v
      end
  | TList t' =>
      match v with
      | VList l => VList <$> mapM (validate_type t') l
      | _ => None
      end
  | TDict t' =>
      match v with
      | VDict kvs =>
          VDict <$> mapM (fun kv => pair (fst kv) <$> validate_type t' (snd kv)) kvs
      | _ => None
      end
  end.

(** The fields are validated in declaration order; a key of the body that
    no field declares is ignored.  The second component is what
    [model_dump()] returns. *)
Fixpoint validate_fields (fs : model) (body : dict) : list verror * dict :=
  match fs with
  | [] => ([], [])
  | f :: fs' =>
      let (errs, out) := validate_fields fs' body in
      match dict_get (name f) body with
      | None =>
          match default_value f with
          | Some v => (errs, (name f, v) :: out)
          | None => (Missing (name f) :: errs, out)
          end
      | Some v =>
          match validate_type (annotation f) v with
          | Some w => (errs, (name f, w) :: out)
          | None => (Invalid (name f) :: errs, out)
          end
      end
  end.

Definition model_validate (m : model) (body : value) : list verror + dict :=
  match body with
  | VDict kvs =>
      match validate_fields m kvs with
      | ([], out) => inr out
      | (errs, _) => inl errs
      end
  | _ => inl [NotAnObject]
  end.

(** [p.k] on a validated model. *)
Definition attr (p : dict) (k : string) : value :=
  default VNull (dict_get k p).

(** *** The adapter module [database] *)

(** Modelled from the spec: [database.create_document] is not among the
    sources.  It "inserts payload verbatim into the named collection;
    returns the newly assigned identifier as an opaque string" and "fails
    with StorageUnavailable if no store connection exists". *)
Definition create_document (collection_name : string) (data : dict) : py string :=
  w ← db;
  match w with
  | None => raise DatabaseNotAvailable
  | Some _ => o ← insert_one collection_name data; mret (oid_str o)
  end.

Definition record_of (x : document) : value :=
  VDict (dict_set "id" (VStr (oid_str (_id x))) (fields x)).

(** Modelled from the spec: [database.get_documents] is not among the
    sources.  It "returns all documents", "converts the internal identifier
    into a string field id in each returned record", and "returns an empty
    sequence (not an error) when the store is unavailable". *)
Definition get_documents (collection_name : string) : py (list value) :=
  w ← db;
  match w with
  | None => mret []
  | Some _ => docs ← find collection_name QAll; mret (map record_of docs)
  end.

(** [bson.ObjectId(s)] *)
Definition ObjectId_ (s : string) : py oid :=
  match ObjectId lib s with
  | Some o => mret o
  | None =>
      raise (InvalidId ("'" ++ s ++ "' is not a valid ObjectId, it must be a 12-byte input or a 24-character hex string"))
  end.

(** *** Handlers of [main.py]

    A handler with a body parameter receives the validated model as the
    dict that [model_dump()] returns.  [clock k] is the k-th reading of
    [datetime.utcnow()] during the request. *)

Definition sample_jobs (clock : nat -> Z) : list dict :=
  [ [ ("title", VStr "Senior Frontend Engineer");
      ("department", VStr "Engineering");
      ("location", VStr "Remote");
      ("status", VStr "open");
      ("owner", VStr "Alex Johnson");
      ("description", VStr "Own the web UI and design systems.");
      ("date_posted", VDate (clock 0%nat)) ];
    [ ("title", VStr "Product Manager");
      ("department", VStr "Product");
      ("location", VStr "NYC");
      ("status", VStr "open");
      ("owner", VStr "Priya Sharma");
      ("description", VStr "Drive roadmap and outcomes.");
      ("date_posted", VDate (clock 1%nat - timedelta_us 3 0)) ] ].

Definition scores (technical culture communication : Z) : value :=
  VDict [ ("technical", VInt technical); ("culture", VInt culture);
          ("communication", VInt communication) ].

Definition sample_candidates : list dict :=
  [ [ ("name", VStr "Jordan Lee");
      ("email", VStr "jordan@example.com");
      ("current_role", VStr "Frontend Engineer");
      ("stage", VStr "interview");
      ("skills", VList [VStr "React"; VStr "TypeScript"; VStr "Tailwind"]);
      ("assessment_scores", scores 85 78 88);
      ("avatar_url", VStr "https://i.pravatar.cc/120?img=5") ];
    [ ("name", VStr "Samira Khan");
      ("email", VStr "samira@example.com");
      ("current_role", VStr "Product Manager");
      ("stage", VStr "applied");
      ("skills", VList [VStr "Roadmapping"; VStr "Analytics"; VStr "User Research"]);
      ("assessment_scores", scores 70 90 92);
      ("avatar_url", VStr "https://i.pravatar.cc/120?img=32") ];
    [ ("name", VStr "Diego Martinez");
      ("email", VStr "diego@example.com");
      ("current_role", VStr "Backend Engineer");
      ("stage", VStr "offer");
      ("skills", VList [VStr "Python"; VStr "FastAPI"; VStr "MongoDB"]);
      ("assessment_scores", scores 91 84 80);
      ("avatar_url", VStr "https://i.pravatar.cc/120?img=15") ] ].

Definition ok_status : value := VDict [("status", VStr "ok")].

Definition sample_interview (clock : nat -> Z) (cand : document) : dict :=
  [ ("candidate_id", VStr (oid_str (_id cand)));
    ("candidate_name", attr (fields cand) "name");
    ("interviewer", VStr "Alex Johnson");
    ("time", VDate (clock 2%nat + timedelta_us 0 4));
    ("status", VStr "scheduled");
    ("meeting_url", VStr "https://meet.example.com/abc") ].

Definition seed_demo_data (clock : nat -> Z) : py value :=
  w ← db;
  match w with
  | None => raise (HTTPException 500 "Database not available")
  | Some _ =>
      (* seed jobs *)
      n ← count_documents "job" QAll;
      (if Nat.eqb n 0
       then mapM (create_document "job") (sample_jobs clock);; mret tt
       else mret tt);;
      (* seed candidates *)
      n ← count_documents "candidate" QAll;
      (if Nat.eqb n 0
       then mapM (create_document "candidate") sample_candidates;; mret tt
       else mret tt);;
      (* seed interviews *)
      n ← count_documents "interview" QAll;
      (if Nat.eqb n 0
       then
         cand ← find_one "candidate" (QField "stage" (CEq "interview"));
         match cand with
         | Some c => create_document "interview" (sample_interview clock c);; mret tt
         | None => mret tt
         end
       else mret tt);;
      mret ok_status
  end.

(** The store after a successful [seed_demo_data], as a function of the
    store before; [seed_demo_data_run] below proves that this is what the
    handler leaves. *)
Definition seed_step (c : string) (docs : list dict) (d : database) : database :=
  if Nat.eqb (length (coll d c)) 0
  then fold_left (fun acc payload => add_document c payload acc) docs d
  else d.

Definition seeded (clock : nat -> Z) (d : database) : database :=
  let d2 := seed_step "candidate" sample_candidates
              (seed_step "job" (sample_jobs clock) d) in
  if Nat.eqb (length (coll d2 "interview")) 0
  then match List.find (matches (QField "stage" (CEq "interview")))
               (coll d2 "candidate") with
       | Some c => add_document "interview" (sample_interview clock c) d2
       | None => d2
       end
  else d2.

(** The local [count] of [get_metrics]. *)
Definition count (col : string) (filt : option query) : py nat :=
  w ← db;
  match w with
  | None => mret 0%nat
  | Some _ => count_documents col (default QAll filt)
  end.

Definition get_metrics : py value :=
  total_jobs ← count "job" None;
  active_candidates ←
    count "candidate" (Some (QField "stage" (CNin ["rejected"; "hired"])));
  offers_sent ←
    count "offer" (Some (QField "status" (CIn ["sent"; "accepted"; "declined"])));
  let time_to_fill := 24%Z in
  mret (VDict [ ("total_jobs", VInt (Z.of_nat total_jobs));
                ("active_candidates", VInt (Z.of_nat active_candidates));
                ("offers_sent", VInt (Z.of_nat offers_sent));
                ("time_to_fill", VInt time_to_fill) ]).

(** [get_documents(c) if db else []] *)
Definition list_documents (c : string) : py value :=
  w ← db;
  match w with
  | Some _ => docs ← get_documents c; mret (VList docs)
  | None => mret (VList [])
  end.

Definition id_body (inserted_id : string) : value :=
  VDict [("id", VStr inserted_id)].

Definition list_jobs : py value := list_documents "job".

Definition create_job (job : dict) : py value :=
  inserted_id ← create_document "job" job; mret (id_body inserted_id).

Definition list_candidates : py value := list_documents "candidate".

Definition create_candidate (candidate : dict) : py value :=
  inserted_id ← create_document "candidate" candidate; mret (id_body inserted_id).

Definition update_candidate_stage (candidate_id : string) (payload : dict)
    (clock : nat -> Z) : py value :=
  w ← db;
  match w with
  | None => raise (HTTPException 500 "Database not available")
  | Some _ =>
      try_except
        (o ← ObjectId_ candidate_id;
         update_one "candidate" (QId o)
           [("stage", attr payload "stage"); ("updated_at", VDate (clock 0%nat))];;
         mret ok_status)
        (fun e => raise (HTTPException 400 (exn_str e)))
  end.

Definition list_interviews : py value := list_documents "interview".

Definition create_interview (interview : dict) : py value :=
  inserted_id ← create_document "interview" interview; mret (id_body inserted_id).

Definition create_feedback (interview_id : string) (feedback : dict) : py value :=
  inserted_id ←
    create_document "feedback"
      (dict_update [("interview_id", VStr interview_id)] feedback);
  mret (id_body inserted_id).

Definition list_offers : py value := list_documents "offer".

Definition create_offer (offer : dict) : py value :=
  inserted_id ← create_document "offer" offer; mret (id_body inserted_id).

Definition update_offer_status (offer_id : string) (payload : dict)
    (clock : nat -> Z) : py value :=
  w ← db;
  match w with
  | None => raise (HTTPException 500 "Database not available")
  | Some _ =>
      try_except
        (o ← ObjectId_ offer_id;
         update_one "offer" (QId o)
           [("status", attr payload "status"); ("updated_at", VDate (clock 0%nat))];;
         mret ok_status)
        (fun e => raise (HTTPException 400 (exn_str e)))
  end.

Definition list_onboarding : py value := list_documents "onboardingtask".

Definition create_onboarding (task : dict) : py value :=
  inserted_id ← create_document "onboardingtask" task; mret (id_body inserted_id).

Definition list_messages : py value := list_documents "message".

Definition create_message (msg : dict) : py value :=
  inserted_id ← create_document "message" msg; mret (id_body inserted_id).

(** The two transition handlers have one shape: collection [c], field [k]. *)
Definition patch_field (c k : string) (id : string) (payload : dict)
    (clock : nat -> Z) : py value :=
  w ← db;
  match w with
  | None => raise (HTTPException 500 "Database not available")
  | Some _ =>
      try_except
        (o ← ObjectId_ id;
         update_one c (QId o)
           [(k, attr payload k); ("updated_at", VDate (clock 0%nat))];;
         mret ok_status)
        (fun e => raise (HTTPException 400 (exn_str e)))
  end.

(** The frame of a transition on collection [c], field [k], identifier
    [id]: the store [d'] differs from [d] in at most one document of [c],
    whose identifier is the one [id] parses to, and in that document in at
    most the fields [k] and [updated_at]. *)
Definition narrow_patch (c k id : string) (d d' : database) : Prop :=
  next_oid d' = next_oid d /\
  down d' = down d /\
  (forall c', c' <> c -> coll d' c' = coll d c') /\
  (coll d' c = coll d c \/
   exists pre x x' post,
     coll d c = pre ++ x :: post /\
     coll d' c = pre ++ x' :: post /\
     _id x' = _id x /\
     ObjectId lib id = Some (_id x) /\
     forall k', k' <> k -> k' <> "updated_at" ->
       dict_get k' (fields x') = dict_get k' (fields x)).

(** *** Routing *)

(** A body parameter is validated before the handler is called; a failure
    is answered with 422 and the handler does not run. *)
Definition serve_body (m : model) (body : value) (h : dict -> py value) : endpoint :=
  fun w => match model_validate m body with
           | inl errs => (Unprocessable errs, w)
           | inr p => serve (h p) w
           end.

Definition app (req : request) (clock : nat -> Z) : endpoint :=
  match req with
  | POST_api_seed => serve (seed_demo_data clock)
  | GET_api_metrics => serve get_metrics
  | GET_api_jobs => serve list_jobs
  | POST_api_jobs body => serve_body JobIn body create_job
  | GET_api_candidates => serve list_candidates
  | POST_api_candidates body => serve_body CandidateIn body create_candidate
  | POST_api_candidates_stage candidate_id body =>
      serve_body StageUpdate body
        (fun payload => update_candidate_stage candidate_id payload clock)
  | GET_api_interviews => serve list_interviews
  | POST_api_interviews body => serve_body InterviewIn body create_interview
  | POST_api_interviews_feedback interview_id body =>
      serve_body FeedbackIn body (create_feedback interview_id)
  | GET_api_offers => serve list_offers
  | POST_api_offers body => serve_body OfferIn body create_offer
  | POST_api_offers_status offer_id body =>
      serve_body OfferStatus body
        (fun payload => update_offer_status offer_id payload clock)
  | GET_api_onboarding => serve list_onboarding
  | POST_api_onboarding body => serve_body OnboardingTaskIn body create_onboarding
  | GET_api_messages => serve list_messages
  | POST_api_messages body => serve_body MessageIn body create_message
  end.

(** The payload that the create handler of an entity hands to
    [create_document]. *)
Definition created_payload (e : entity) (path_id : string) (p : dict) : dict :=
  match e with
  | feedback => dict_update [("interview_id", VStr path_id)] p
  | _ => p
  end.

(** *** The remaining handlers of [main.py] *)

Definition read_root : py value :=
  mret (VDict [("name", VStr "LevelUp ATS API"); ("status", VStr "ok")]).

Definition hello : py value :=
  mret (VDict [("message", VStr "Hello from LevelUp ATS backend!")]).

(** The floats of [analytics_placeholder], by their binary64 bit patterns:
    2.5, 3.1, 5.2, 1.3 and 0.72. *)
Definition analytics_placeholder : py value :=
  applications ←
    (w ← db; match w with
             | Some _ => count_documents "candidate" QAll
             | None => mret 0%nat
             end);
  interviews ←
    (w ← db; match w with
             | Some _ => count_documents "interview" QAll
             | None => mret 0%nat
             end);
  offers ←
    (w ← db; match w with
             | Some _ => count_documents "offer" QAll
             | None => mret 0%nat
             end);
  hires ←
    (w ← db; match w with
             | Some _ => count_documents "candidate" (QField "stage" (CEq "hired"))
             | None => mret 0%nat
             end);
  mret (VDict
    [ ("funnel",
       VDict [ ("applications", VInt (Z.of_nat applications));
               ("interviews", VInt (Z.of_nat interviews));
               ("offers", VInt (Z.of_nat offers));
               ("hires", VInt (Z.of_nat hires)) ]);
      ("avg_time_per_stage",
       VDict [ ("applied", VFloat 4612811918334230528);
               ("screening", VFloat 4614162998222441677);
               ("interview", VFloat 4617540697942969549);
               ("offer", VFloat 4608533498688228557) ]);
      ("offer_acceptance_rate", VFloat 4604660403008689930);
      ("top_sources",
       VList [ VDict [("source", VStr "LinkedIn"); ("count", VInt 48)];
               VDict [("source", VStr "Referrals"); ("count", VInt 31)];
               VDict [("source", VStr "Careers Page"); ("count", VInt 22)] ]) ]).

Definition get_schema_info : py value :=
  mret (VDict
    [ ("collections",
       VList [ VStr "job"; VStr "candidate"; VStr "interview"; VStr "feedback";
               VStr "offer"; VStr "onboardingtask"; VStr "message" ]) ]).

(** All routes of [app] but [/test]: the ones of [request], and the four
    that take no part in the create, list and transition contract. *)
Inductive route : Type :=
| Api (req : request)
| GET_root
| GET_api_hello
| GET_api_analytics
| GET_schema.

Definition dispatch (r : route) (clock : nat -> Z) : endpoint :=
  match r with
  | Api req => app req clock
  | GET_root => serve read_root
  | GET_api_hello => serve hello
  | GET_api_analytics => serve analytics_placeholder
  | GET_schema => serve get_schema_info
  end.

(** The routes declared with [@app.get]. *)
Definition is_get (r : route) : bool :=
  match r with
  | Api GET_api_metrics | Api GET_api_jobs | Api GET_api_candidates
  | Api GET_api_interviews | Api GET_api_offers | Api GET_api_onboarding
  | Api GET_api_messages => true
  | Api _ => false
  | GET_root | GET_api_hello | GET_api_analytics | GET_schema => true
  end.

(** The two transition routes. *)
Definition is_transition (r : route) : bool :=
  match r with
  | Api (POST_api_candidates_stage _ _) | Api (POST_api_offers_status _ _) => true
  | _ => false
  end.

(** The routes with a body parameter. *)
Definition has_body (r : route) : bool :=
  match r with
  | Api (POST_api_jobs _) | Api (POST_api_candidates _)
  | Api (POST_api_candidates_stage _ _) | Api (POST_api_interviews _)
  | Api (POST_api_interviews_feedback _ _) | Api (POST_api_offers _)
  | Api (POST_api_offers_status _ _) | Api (POST_api_onboarding _)
  | Api (POST_api_messages _) => true
  | _ => false
  end.

(** The stage of a document is the string [s]. *)
Definition stage_is (s : string) (x : document) : bool :=
  field_in "stage" [s] x.

(** The bodies that [get_metrics] and [analytics_placeholder] answer with,
    as functions of the counts. *)
Definition metrics_body (total_jobs active_candidates offers_sent : nat) : value :=
  VDict [ ("total_jobs", VInt (Z.of_nat total_jobs));
          ("active_candidates", VInt (Z.of_nat active_candidates));
          ("offers_sent", VInt (Z.of_nat offers_sent));
          ("time_to_fill", VInt 24) ].

Definition analytics_body (applications interviews offers hires : nat) : value :=
  VDict
    [ ("funnel",
       VDict [ ("applications", VInt (Z.of_nat applications));
               ("interviews", VInt (Z.of_nat interviews));
               ("offers", VInt (Z.of_nat offers));
               ("hires", VInt (Z.of_nat hires)) ]);
      ("avg_time_per_stage",
       VDict [ ("applied", VFloat 4612811918334230528);
               ("screening", VFloat 4614162998222441677);
               ("interview", VFloat 4617540697942969549);
               ("offer", VFloat 4608533498688228557) ]);
      ("offer_acceptance_rate", VFloat 4604660403008689930);
      ("top_sources",
       VList [ VDict [("source", VStr "LinkedIn"); ("count", VInt 48)];
               VDict [("source", VStr "Referrals"); ("count", VInt 31)];
               VDict [("source", VStr "Careers Page"); ("count", VInt 22)] ]) ].

(** ** Properties *)

(** *** Dicts *)

Lemma dict_get_set_eq k v (d : dict) : dict_get k (dict_set k v d) = Some v.
Proof.
  induction d as [|[k' v'] d IH]; simpl.
  - by rewrite String.eqb_refl.
  - destruct (String.eqb k k') eqn:E; simpl; rewrite ?String.eqb_refl, ?E; done.
Qed.

Lemma dict_get_set_ne k k' v (d : dict) :
  k <> k' -> dict_get k' (dict_set k v d) = dict_get k' d.
Proof.
  intros Hne. induction d as [|[k0 v0] d IH]; simpl.
  - destruct (String.eqb k' k) eqn:E; [|done].
    apply String.eqb_eq in E. congruence.
  - destruct (String.eqb k k0) eqn:E; simpl.
    + apply String.eqb_eq in E. subst k0.
      destruct (String.eqb k' k) eqn:E'; [|done].
      apply String.eqb_eq in E'. congruence.
    + by rewrite IH.
Qed.


(** *** Identifiers as strings *)


Lemma hex_digits_length k n : length (hex_digits k n) = k.
Proof.
  revert n. induction k as [|k IH]; intros n; simpl; [done|].
  rewrite length_app, IH. simpl. lia.
Qed.


Lemma string_of_list_ascii_length l :
  String.length (string_of_list_ascii l) = length l.
Proof. induction l as [|c l IH]; simpl; congruence. Qed.

Lemma oid_str_length o : String.length (oid_str o) = 24%nat.
Proof.
  unfold oid_str. by rewrite string_of_list_ascii_length, hex_digits_length.
Qed.

Lemma oid_str_nonempty o : oid_str o <> EmptyString.
Proof.
  intros E. pose proof (oid_str_length o) as H. rewrite E in H. discriminate H.
Qed.


(** *** The store *)

Lemma coll_add_document_eq c p d :
  coll (add_document c p d) c = coll d c ++ [{| _id := next_oid d; fields := p |}].
Proof. unfold coll, add_document; simpl. by rewrite lookup_insert_eq. Qed.

Lemma coll_add_document_ne c c' p d :
  c <> c' -> coll (add_document c p d) c' = coll d c'.
Proof. intros. unfold coll, add_document; simpl. by rewrite lookup_insert_ne. Qed.

Lemma coll_set_coll_eq c docs d : coll (set_coll c docs d) c = docs.
Proof. unfold coll, set_coll; simpl. by rewrite lookup_insert_eq. Qed.

Lemma coll_set_coll_ne c c' docs d : c <> c' -> coll (set_coll c docs d) c' = coll d c'.
Proof. intros. unfold coll, set_coll; simpl. by rewrite lookup_insert_ne. Qed.

Lemma create_document_run c data d :
  down d = None ->
  create_document c data (Some d) =
  (inr (oid_str (next_oid d)), Some (add_document c data d)).
Proof.
  intros Hd. unfold create_document, insert_one, reach, db, put, mbind, py_bind, mret, py_ret.
  simpl. by rewrite Hd.
Qed.

Lemma create_document_down c data d msg :
  down d = Some msg ->
  create_document c data (Some d) = (inl (PyMongoError msg), Some d).
Proof.
  intros Hd. unfold create_document, insert_one, reach, db, raise, mbind, py_bind.
  simpl. by rewrite Hd.
Qed.

(** *** Validation *)


Lemma validate_fields_present (fs : model) body f v :
  NoDup (map name fs) -> In f fs -> dict_get (name f) body = Some v ->
  match validate_type (annotation f) v with
  | Some w => dict_get (name f) (snd (validate_fields fs body)) = Some w
  | None => In (Invalid (name f)) (fst (validate_fields fs body))
  end.
Proof.
  induction fs as [|f0 fs IH]; simpl; [done|].
  intros Hnd [->|Hin] Hget.
  - destruct (validate_fields fs body) as [errs out]. rewrite Hget.
    destruct (validate_type (annotation f) v); simpl; [|by left].
    by rewrite String.eqb_refl.
  - apply NoDup_cons in Hnd as [Hnot Hnd].
    specialize (IH Hnd Hin Hget).
    assert (String.eqb (name f) (name f0) = false) as Hne.
    { apply String.eqb_neq. intros E. apply Hnot. rewrite <- E.
      apply list_elem_of_In, in_map, Hin. }
    destruct (validate_fields fs body) as [errs out]. simpl in IH.
    destruct (validate_type (annotation f) v);
      repeat case_match; simpl; rewrite ?Hne; auto.
Qed.

Lemma validate_fields_absent (fs : model) body f :
  NoDup (map name fs) -> In f fs -> dict_get (name f) body = None ->
  match default_value f with
  | Some v => dict_get (name f) (snd (validate_fields fs body)) = Some v
  | None => In (Missing (name f)) (fst (validate_fields fs body))
  end.
Proof.
  induction fs as [|f0 fs IH]; simpl; [done|].
  intros Hnd [->|Hin] Hget.
  - destruct (validate_fields fs body) as [errs out]. rewrite Hget.
    destruct (default_value f); simpl; [|by left].
    by rewrite String.eqb_refl.
  - apply NoDup_cons in Hnd as [Hnot Hnd].
    specialize (IH Hnd Hin Hget).
    assert (String.eqb (name f) (name f0) = false) as Hne.
    { apply String.eqb_neq. intros E. apply Hnot. rewrite <- E.
      apply list_elem_of_In, in_map, Hin. }
    destruct (validate_fields fs body) as [errs out]. simpl in IH.
    destruct (default_value f);
      repeat case_match; simpl; rewrite ?Hne; auto.
Qed.

Lemma model_validate_inr (m : model) body p :
  model_validate m body = inr p ->
  exists kvs, body = VDict kvs /\ validate_fields m kvs = ([], p).
Proof.
  unfold model_validate. destruct body; try done.
  destruct (validate_fields m kvs) as [[|e errs] out] eqn:E; [|done].
  intros [= ->]. eauto.
Qed.

Lemma model_validate_inl (m : model) kvs errs :
  model_validate m (VDict kvs) = inl errs ->
  errs = fst (validate_fields m kvs) /\ errs <> [].
Proof.
  unfold model_validate.
  destruct (validate_fields m kvs) as [[|e es] out] eqn:E; [done|].
  by intros [= <-].
Qed.

Lemma validate_fields_invalid (fs : model) body k :
  In (Invalid k) (fst (validate_fields fs body)) ->
  exists f v, In f fs /\ name f = k /\ dict_get k body = Some v /\
              validate_type (annotation f) v = None.
Proof.
  induction fs as [|f fs IH]; simpl; [done|].
  destruct (validate_fields fs body) as [errs out]. simpl in IH.
  destruct (dict_get (name f) body) as [v|] eqn:Hget.
  - destruct (validate_type (annotation f) v) eqn:Hv; simpl.
    + intros H. destruct (IH H) as (f' & v' & ? & ? & ? & ?). exists f', v'. auto.
    + intros [[= <-]|H].
      * exists f, v. auto.
      * destruct (IH H) as (f' & v' & ? & ? & ? & ?). exists f', v'. auto.
  - destruct (default_value f); simpl.
    + intros H. destruct (IH H) as (f' & v' & ? & ? & ? & ?). exists f', v'. auto.
    + intros [[=]|H].
      destruct (IH H) as (f' & v' & ? & ? & ? & ?). exists f', v'. auto.
Qed.

Lemma NoDup_names_unique (fs : model) f g :
  NoDup (map name fs) -> In f fs -> In g fs -> name f = name g -> f = g.
Proof.
  induction fs as [|f0 fs IH]; simpl; [done|].
  intros Hnd Hf Hg E. apply NoDup_cons in Hnd as [Hnot Hnd].
  destruct Hf as [->|Hf], Hg as [->|Hg]; auto.
  - exfalso. apply Hnot. rewrite E. apply list_elem_of_In, in_map, Hg.
  - exfalso. apply Hnot. rewrite <- E. apply list_elem_of_In, in_map, Hf.
Qed.

Lemma request_model_NoDup e : NoDup (map name (request_model e)).
Proof. destruct e; apply (bool_decide_unpack _); vm_compute; exact I. Qed.

(** Every field that a schema of [schemas.py] declares as a [Literal] is a
    plain [str] in the request model of the same entity. *)
Lemma enumerated_field_is_str e f vs :
  In (f, vs) (enumerated_fields (schema_of e)) ->
  exists fl, In fl (request_model e) /\ name fl = f /\ annotation fl = TStr.
Proof.
  destruct e; simpl; intros H;
    repeat (destruct H as [[= <- <-]|H];
            [eexists; split; [simpl; pick_member | split; reflexivity]|]);
    destruct H.
Qed.

(** *** Running the create and list routes *)

Lemma app_create_invalid e path_id body errs clock w :
  model_validate (request_model e) body = inl errs ->
  app (create_request e path_id body) clock w = (Unprocessable errs, w).
Proof. intros H. destruct e; simpl in *; unfold serve_body; by rewrite H. Qed.

Lemma app_create_valid e path_id body p clock d :
  down d = None ->
  model_validate (request_model e) body = inr p ->
  app (create_request e path_id body) clock (Some d) =
  (OK (id_body (oid_str (next_oid d))),
   Some (add_document (collection_of e) (created_payload e path_id p) d)).
Proof.
  intros Hd H.
  destruct e; simpl in *; unfold serve_body; rewrite H;
    unfold serve, create_job, create_candidate, create_interview, create_feedback,
      create_offer, create_onboarding, create_message, mbind, py_bind;
    by rewrite create_document_run.
Qed.

Lemma created_payload_get e path_id p k :
  k <> "interview_id" ->
  dict_get k (created_payload e path_id p) = dict_get k p.
Proof.
  intros Hk. destruct e; simpl; try done.
  unfold dict_update; simpl. apply dict_get_set_ne. congruence.
Qed.

Lemma enumerated_field_not_path e f vs :
  In (f, vs) (enumerated_fields (schema_of e)) -> f <> "interview_id".
Proof.
  destruct e; simpl; intros H;
    repeat (destruct H as [[= <- <-]|H]; [done|]); destruct H.
Qed.

Lemma mapM_verbatim {A} (f : A -> option A) (l k : list A) :
  (forall x y, f x = Some y -> y = x) -> mapM f l = Some k -> k = l.
Proof.
  intros Hf H. apply mapM_Some_1 in H.
  induction H as [|x y l k Hxy _ IH]; [done|].
  by rewrite (Hf _ _ Hxy), IH.
Qed.

Lemma validate_type_verbatim t :
  verbatim t = true -> forall v w, validate_type t v = Some w -> w = v.
Proof.
  induction t as [| | | | | |t IH|t IH|t IH]; simpl; try done; intros Hv v w.
  - destruct v; naive_solver.
  - destruct v; try done. case_match; naive_solver.
  - naive_solver.
  - destruct v; try naive_solver.
  - destruct v; try done.
    destruct (mapM (validate_type t) l) as [l'|] eqn:E; simpl; [|done].
    intros [= <-]. f_equal. eapply mapM_verbatim; [|done]. by apply IH.
  - destruct v; try done.
    destruct (mapM _ kvs) as [l'|] eqn:E; simpl; [|done].
    intros [= <-]. f_equal. eapply mapM_verbatim; [|done].
    intros [k x] y. simpl.
    destruct (validate_type t x) as [x'|] eqn:Ex; simpl; [|done].
    intros [= <-]. by rewrite (IH Hv _ _ Ex).
Qed.

Lemma filter_all_true {A} (l : list A) : List.filter (fun _ => true) l = l.
Proof. induction l; simpl; congruence. Qed.

Lemma get_documents_run c d :
  down d = None ->
  get_documents c (Some d) = (inr (map record_of (coll d c)), Some d).
Proof.
  intros Hd. unfold get_documents, find, reach, db, mbind, py_bind, mret, py_ret.
  simpl. rewrite Hd. simpl. by rewrite filter_all_true.
Qed.


Lemma app_list_absent e req clock :
  list_request e = Some req -> app req clock None = (OK (VList []), None).
Proof. intros Hreq. destruct e; simpl in Hreq; by simplify_eq. Qed.

Lemma request_model_no_id e : ~ In "id" (map name (request_model e)).
Proof.
  destruct e; simpl; intros H;
    repeat (destruct H as [H|H]; [discriminate H|]); exact H.
Qed.

Lemma validated_verbatim_field (m : model) body p fl v :
  NoDup (map name m) -> In fl m -> verbatim (annotation fl) = true ->
  validate_fields m body = ([], p) ->
  dict_get (name fl) body = Some v -> dict_get (name fl) p = Some v.
Proof.
  intros Hnd Hfl Hverb Hv Hget.
  pose proof (validate_fields_present m body fl v Hnd Hfl Hget) as Hpres.
  rewrite Hv in Hpres.
  destruct (validate_type (annotation fl) v) as [w|] eqn:Hw; [|destruct Hpres].
  by rewrite <- (validate_type_verbatim _ Hverb _ _ Hw).
Qed.

(** *** String fields on create *)

(** What the create route of [e] does with a field that the request model
    annotates [str]. *)
Lemma create_str_field (e : entity) (fl : field) (path_id : string)
    (body : dict) (clock : nat -> Z) (w : option database) :
  In fl (request_model e) -> annotation fl = TStr -> name fl <> "interview_id" ->
  (forall v, dict_get (name fl) body = Some v -> (forall s, v <> VStr s) ->
     exists errs,
       app (create_request e path_id (VDict body)) clock w = (Unprocessable errs, w) /\
       In (Invalid (name fl)) errs) /\
  (forall s errs, dict_get (name fl) body = Some (VStr s) ->
     model_validate (request_model e) (VDict body) = inl errs ->
     ~ In (Invalid (name fl)) errs) /\
  (forall s p d, dict_get (name fl) body = Some (VStr s) ->
     w = Some d -> down d = None ->
     model_validate (request_model e) (VDict body) = inr p ->
     exists payload,
       app (create_request e path_id (VDict body)) clock w =
         (OK (id_body (oid_str (next_oid d))),
          Some (add_document (collection_of e) payload d)) /\
       dict_get (name fl) payload = Some (VStr s)).
Proof.
  intros Hfl Hann Hpath.
  pose proof (request_model_NoDup e) as Hnd.
  split; [|split].
  - intros v Hget Hv.
    pose proof (validate_fields_present (request_model e) body fl v Hnd Hfl Hget) as Hp.
    rewrite Hann in Hp.
    assert (validate_type TStr v = None) as Hnone.
    { destruct v; simpl; try done. by destruct (Hv s). }
    rewrite Hnone in Hp.
    destruct (model_validate (request_model e) (VDict body)) as [errs|p] eqn:Hm.
    + exists errs. split; [by apply app_create_invalid|].
      apply model_validate_inl in Hm as [-> _]. done.
    + apply model_validate_inr in Hm as (kvs & [= <-] & Hm).
      rewrite Hm in Hp. destruct Hp.
  - intros s errs Hget Hm Hbad.
    apply model_validate_inl in Hm as [-> _].
    apply validate_fields_invalid in Hbad as (g & v & Hg & Hgn & Hgv & Hnone).
    assert (g = fl) as -> by (by apply (NoDup_names_unique (request_model e))).
    rewrite Hget in Hgv. injection Hgv as <-. rewrite Hann in Hnone. done.
  - intros s p d Hget -> Hd Hm.
    exists (created_payload e path_id p). split; [by apply app_create_valid|].
    rewrite created_payload_get by done.
    apply model_validate_inr in Hm as (kvs & [= <-] & Hm).
    pose proof (validate_fields_present (request_model e) body fl (VStr s) Hnd Hfl Hget) as Hp.
    rewrite Hann in Hp. simpl in Hp. by rewrite Hm in Hp.
Qed.

Lemma create_required_field (e : entity) (fl : field) (path_id : string)
    (body : dict) (clock : nat -> Z) (w : option database) :
  In fl (request_model e) -> default_value fl = None ->
  dict_get (name fl) body = None ->
  exists errs,
    app (create_request e path_id (VDict body)) clock w = (Unprocessable errs, w) /\
    In (Missing (name fl)) errs.
Proof.
  intros Hfl Hdef Hget.
  pose proof (validate_fields_absent (request_model e) body fl
                (request_model_NoDup e) Hfl Hget) as Hp.
  rewrite Hdef in Hp.
  destruct (model_validate (request_model e) (VDict body)) as [errs|p] eqn:Hm.
  - exists errs. split; [by apply app_create_invalid|].
    apply model_validate_inl in Hm as [-> _]. done.
  - apply model_validate_inr in Hm as (kvs & [= <-] & Hm).
    rewrite Hm in Hp. destruct Hp.
Qed.

(** C1 (amended).  For every entity and every field that [schemas.py]
    declares with a set of values, the create route checks only that the
    value is a string: a value of another type is rejected with 422 naming
    the field and the store is left as it was; a string is never reported
    as invalid for that field, whether or not it belongs to the declared
    set, and when the body validates the document is inserted with that
    string. *)
Theorem create_checks_enumerated_field_as_string
    (e : entity) (f : string) (vs : list string) (path_id : string)
    (body : dict) (clock : nat -> Z) (w : option database) :
  In (f, vs) (enumerated_fields (schema_of e)) ->
  (forall v, dict_get f body = Some v -> (forall s, v <> VStr s) ->
     exists errs,
       app (create_request e path_id (VDict body)) clock w = (Unprocessable errs, w) /\
       In (Invalid f) errs) /\
  (forall s errs, dict_get f body = Some (VStr s) ->
     model_validate (request_model e) (VDict body) = inl errs ->
     ~ In (Invalid f) errs) /\
  (forall s p d, dict_get f body = Some (VStr s) ->
     w = Some d -> down d = None ->
     model_validate (request_model e) (VDict body) = inr p ->
     exists payload,
       app (create_request e path_id (VDict body)) clock w =
         (OK (id_body (oid_str (next_oid d))),
          Some (add_document (collection_of e) payload d)) /\
       dict_get f payload = Some (VStr s)).
Proof.
  intros Hin.
  destruct (enumerated_field_is_str _ _ _ Hin) as (fl & Hfl & <- & Hann).
  apply create_str_field; try done.
  by eapply enumerated_field_not_path.
Qed.

(** C4 (amended).  Creating a candidate checks only that [email] is present
    and is a string: a missing email or one of another type is rejected
    with 422 and the store is left as it was; a string is never reported as
    an invalid email, whatever its syntax, and when the body validates the
    candidate is inserted with that string as its email. *)
Theorem create_candidate_checks_email_as_string
    (body : dict) (clock : nat -> Z) (w : option database) :
  (dict_get "email" body = None ->
     exists errs,
       app (POST_api_candidates (VDict body)) clock w = (Unprocessable errs, w) /\
       In (Missing "email") errs) /\
  (forall v, dict_get "email" body = Some v -> (forall s, v <> VStr s) ->
     exists errs,
       app (POST_api_candidates (VDict body)) clock w = (Unprocessable errs, w) /\
       In (Invalid "email") errs) /\
  (forall s errs, dict_get "email" body = Some (VStr s) ->
     model_validate CandidateIn (VDict body) = inl errs ->
     ~ In (Invalid "email") errs) /\
  (forall s p d, dict_get "email" body = Some (VStr s) ->
     w = Some d -> down d = None ->
     model_validate CandidateIn (VDict body) = inr p ->
     exists payload,
       app (POST_api_candidates (VDict body)) clock w =
         (OK (id_body (oid_str (next_oid d))),
          Some (add_document "candidate" payload d)) /\
       dict_get "email" payload = Some (VStr s)).
Proof.
  assert (In (Field "email" TStr None) (request_model candidate)) as Hfl
    by (simpl; pick_member).
  split.
  - intros Hget.
    by apply (create_required_field candidate (Field "email" TStr None) EmptyString).
  - by apply (create_str_field candidate (Field "email" TStr None) EmptyString body clock w).
Qed.

(** *** Create, then list *)


Lemma healthy_add_document c p d :
  healthy d -> (next_oid d + 1 < 2 ^ 96)%N -> healthy (add_document c p d).
Proof.
  intros (Hd & Hb & Hids) Hn. repeat split; simpl; [done..|].
  intros c' x. destruct (decide (c = c')) as [<-|Hne].
  - rewrite coll_add_document_eq, in_app_iff. simpl.
    intros [Hx|[<-|[]]]; [|simpl; lia]. specialize (Hids _ _ Hx). lia.
  - rewrite coll_add_document_ne by done. intros Hx.
    specialize (Hids _ _ Hx). lia.
Qed.


(** *** Messages *)

Lemma validate_str_inv v w : validate_type TStr v = Some w -> exists s, v = VStr s /\ w = VStr s.
Proof. destruct v; simpl; intros [= <-]; eauto. Qed.

(** A body that validates gives one entry per declared field, in
    declaration order: the validated value, or the default. *)
Lemma validate_fields_ok (fs : model) body p :
  validate_fields fs body = ([], p) ->
  Forall2 (fun f kv =>
             fst kv = name f /\
             match dict_get (name f) body with
             | Some v => validate_type (annotation f) v = Some (snd kv)
             | None => default_value f = Some (snd kv)
             end) fs p.
Proof.
  revert p. induction fs as [|f fs IH]; simpl; intros p.
  - intros [= <-]. constructor.
  - destruct (validate_fields fs body) as [errs out].
    destruct (dict_get (name f) body) as [v|] eqn:Hget.
    + destruct (validate_type (annotation f) v) as [w|] eqn:Hw; [|done].
      intros [= -> <-]. constructor; [|by apply IH].
      simpl. by rewrite Hget.
    + destruct (default_value f) as [w|] eqn:Hw; [|done].
      intros [= -> <-]. constructor; [|by apply IH].
      simpl. by rewrite Hget.
Qed.

Lemma required_str_entry body f kv :
  annotation f = TStr -> default_value f = None ->
  fst kv = name f /\
  match dict_get (name f) body with
  | Some v => validate_type (annotation f) v = Some (snd kv)
  | None => default_value f = Some (snd kv)
  end ->
  exists s, kv = (name f, VStr s).
Proof.
  intros Ha Hd [Hk Hv]. destruct kv as [k w]. simpl in *. subst k.
  destruct (dict_get (name f) body) as [v|]; [|congruence].
  rewrite Ha in Hv. apply validate_str_inv in Hv as (s & _ & ->). eauto.
Qed.

Lemma MessageIn_dump body p :
  validate_fields MessageIn body = ([], p) ->
  exists sender receiver content,
    p = [("sender", VStr sender); ("receiver", VStr receiver);
         ("content", VStr content)].
Proof.
  intros H. apply validate_fields_ok in H. unfold MessageIn in H.
  repeat match goal with
         | H : Forall2 _ (_ :: _) _ |- _ =>
             apply Forall2_cons_inv_l in H as (? & ? & ? & H & ->)
         | H : Forall2 _ [] _ |- _ => apply Forall2_nil_inv_l in H as ->
         end.
  repeat match goal with
         | H : fst _ = _ /\ _ |- _ =>
             apply required_str_entry in H as (? & ->); [|reflexivity..]
         end.
  simpl. eauto.
Qed.

(** *** Feedback *)

(** C10 (amended).  The feedback document stored by POST
    /api/interviews/{interview_id}/feedback has the path parameter as its
    [interview_id], whatever the body said; [candidate_id],
    [recommendation] and [comments] are stored as submitted; each rating
    is stored under its key as the integer that the validation of [int]
    returns for the submitted value, which need not be the submitted
    value. *)
Theorem create_feedback_takes_interview_id_from_path
    (interview_id : string) (body p : dict) (clock : nat -> Z) (d : database) :
  down d = None ->
  model_validate FeedbackIn (VDict body) = inr p ->
  exists x,
    app (POST_api_interviews_feedback interview_id (VDict body)) clock (Some d) =
      (OK (id_body (oid_str (_id x))), Some (add_document "feedback" (fields x) d)) /\
    coll (add_document "feedback" (fields x) d) "feedback" =
      coll d "feedback" ++ [x] /\
    dict_get "interview_id" (fields x) = Some (VStr interview_id) /\
    (forall k, k <> "interview_id" -> dict_get k (fields x) = dict_get k p) /\
    (forall k v, In k ["candidate_id"; "recommendation"; "comments"] ->
       dict_get k body = Some v -> dict_get k (fields x) = Some v) /\
    (exists kvs kvs',
       dict_get "ratings" body = Some (VDict kvs) /\
       dict_get "ratings" (fields x) = Some (VDict kvs') /\
       Forall2 (fun a b => fst b = fst a /\
                  exists z, int_lax lib (snd a) = Some z /\ snd b = VInt z)
               kvs kvs').
Proof.
  intros Hd Hm.
  exists {| _id := next_oid d;
            fields := dict_update [("interview_id", VStr interview_id)] p |}.
  pose proof (model_validate_inr _ _ _ Hm) as (kvs & [= <-] & Hv).
  assert (forall k, k <> "interview_id" ->
            dict_get k (dict_update [("interview_id", VStr interview_id)] p) =
            dict_get k p) as Hother.
  { intros k Hk. unfold dict_update; simpl. apply dict_get_set_ne. congruence. }
  assert (NoDup (map name FeedbackIn)) as Hnd by apply (request_model_NoDup feedback).
  simpl fields. simpl _id.
  split; [|split; [|split; [|split; [|split]]]].
  - apply (app_create_valid feedback interview_id _ _ _ _ Hd Hm).
  - apply coll_add_document_eq.
  - unfold dict_update; simpl. apply dict_get_set_eq.
  - exact Hother.
  - intros k v Hk Hget.
    assert (k <> "interview_id" /\
            exists fl, In fl FeedbackIn /\ name fl = k /\
                       verbatim (annotation fl) = true)
      as (Hne & fl & Hfl & <- & Hverb).
    { simpl in Hk.
      repeat (destruct Hk as [<-|Hk];
              [split; [done|];
               eexists; split; [simpl; pick_member|split; reflexivity]|]).
      destruct Hk. }
    rewrite Hother by done.
    by apply (validated_verbatim_field FeedbackIn body).
  - pose proof (validate_fields_absent FeedbackIn body
                  (Field "ratings" (TDict (TInt None)) None) Hnd
                  ltac:(simpl; pick_member)) as Habs.
    cbn [name annotation default_value] in Habs.
    destruct (dict_get "ratings" body) as [v|] eqn:Hget.
    2:{ specialize (Habs eq_refl). rewrite Hv in Habs. destruct Habs. }
    pose proof (validate_fields_present FeedbackIn body
                  (Field "ratings" (TDict (TInt None)) None) v Hnd
                  ltac:(simpl; pick_member) Hget) as Hpres.
    cbn [name annotation default_value] in Hpres.
    rewrite Hv in Hpres. simpl in Hpres.
    destruct v; try (destruct Hpres; fail).
    destruct (mapM _ kvs) as [kvs'|] eqn:E; simpl in Hpres; [|destruct Hpres].
    exists kvs, kvs'. split; [done|]. split; [by rewrite Hother|].
    apply mapM_Some_1 in E.
    eapply Forall2_impl; [exact E|].
    intros [k a] [k' b]; simpl.
    destruct (int_lax lib a) as [z|]; simpl; [|done].
    intros [= <- <-]. eauto.
Qed.

(** *** Transitions *)

Lemma update_candidate_stage_shape :
  update_candidate_stage = patch_field "candidate" "stage".
Proof. reflexivity. Qed.

Lemma update_offer_status_shape :
  update_offer_status = patch_field "offer" "status".
Proof. reflexivity. Qed.

Lemma update_first_none pr f l : existsb pr l = false -> update_first pr f l = l.
Proof.
  induction l as [|x l IH]; simpl; [done|].
  destruct (pr x); simpl; [done|]. intros H. by rewrite IH.
Qed.

Lemma update_first_some pr f l :
  existsb pr l = true ->
  exists pre x post,
    l = pre ++ x :: post /\ pr x = true /\ (forall y, In y pre -> pr y = false) /\
    update_first pr f l = pre ++ f x :: post.
Proof.
  induction l as [|x l IH]; simpl; [done|].
  destruct (pr x) eqn:E; simpl.
  - intros _. exists [], x, l. simpl. repeat split; auto. intros ? [].
  - intros H. destruct (IH H) as (pre & y & post & -> & Hy & Hpre & Hu).
    exists (x :: pre), y, post. simpl. rewrite Hu. repeat split; auto.
    intros z [<-|Hz]; auto.
Qed.

Lemma update_first_at pr f pre x post :
  pr x = true -> (forall y, In y pre -> pr y = false) ->
  update_first pr f (pre ++ x :: post) = pre ++ f x :: post.
Proof.
  intros Hx. induction pre as [|a pre IH]; simpl; intros Hpre.
  - by rewrite Hx.
  - rewrite (Hpre a) by auto. rewrite IH by auto. done.
Qed.

Lemma existsb_false_iff {A} (pr : A -> bool) l :
  existsb pr l = false <-> forall y, In y l -> pr y = false.
Proof.
  induction l as [|a l IH]; simpl.
  - split; [intros _ ? []|done].
  - rewrite orb_false_iff, IH. split.
    + intros [Ha Hl] y [<-|Hy]; auto.
    + intros H. split; auto.
Qed.

Lemma dict_get_patch k v t (d : dict) :
  dict_get k (dict_update [(k, v); ("updated_at", VDate t)] d) =
    (if String.eqb k "updated_at" then Some (VDate t) else Some v) /\
  dict_get "updated_at" (dict_update [(k, v); ("updated_at", VDate t)] d) =
    Some (VDate t) /\
  forall k', k' <> k -> k' <> "updated_at" ->
    dict_get k' (dict_update [(k, v); ("updated_at", VDate t)] d) = dict_get k' d.
Proof.
  unfold dict_update; simpl. split; [|split].
  - destruct (String.eqb k "updated_at") eqn:E.
    + apply String.eqb_eq in E. subst. apply dict_get_set_eq.
    + apply String.eqb_neq in E.
      rewrite dict_get_set_ne by congruence. apply dict_get_set_eq.
  - apply dict_get_set_eq.
  - intros k' H1 H2. rewrite !dict_get_set_ne by congruence. done.
Qed.

(** How [patch_field] runs, case by case. *)
Lemma patch_field_absent c k id payload clock :
  patch_field c k id payload clock None =
  (inl (HTTPException 500 "Database not available"), None).
Proof. reflexivity. Qed.

Lemma patch_field_bad_id c k id payload clock d :
  ObjectId lib id = None ->
  exists msg,
    patch_field c k id payload clock (Some d) =
    (inl (HTTPException 400 msg), Some d).
Proof.
  intros Hid. eexists.
  unfold patch_field, try_except, ObjectId_, db, raise, mbind, py_bind.
  simpl. rewrite Hid. reflexivity.
Qed.

Lemma patch_field_down c k id payload clock d o msg :
  ObjectId lib id = Some o -> down d = Some msg ->
  patch_field c k id payload clock (Some d) =
  (inl (HTTPException 400 msg), Some d).
Proof.
  intros Hid Hd.
  unfold patch_field, try_except, ObjectId_, update_one, reach, db, raise,
    mbind, py_bind, mret, py_ret.
  simpl. rewrite Hid. simpl. by rewrite Hd.
Qed.

Lemma patch_field_ok c k id payload clock d o :
  ObjectId lib id = Some o -> down d = None ->
  patch_field c k id payload clock (Some d) =
  (inr ok_status,
   Some (if existsb (matches (QId o)) (coll d c)
         then set_coll c
                (update_first (matches (QId o))
                   (apply_set [(k, attr payload k);
                               ("updated_at", VDate (clock 0%nat))])
                   (coll d c)) d
         else d)).
Proof.
  intros Hid Hd.
  unfold patch_field, try_except, ObjectId_, update_one, reach, db, put, raise,
    mbind, py_bind, mret, py_ret.
  simpl. rewrite Hid. simpl. rewrite Hd.
  by destruct (existsb _ _).
Qed.

Lemma narrow_patch_refl c k id d : narrow_patch c k id d d.
Proof. unfold narrow_patch. auto. Qed.

Lemma patch_field_frame c k id payload clock d r w' :
  patch_field c k id payload clock (Some d) = (r, w') ->
  exists d', w' = Some d' /\ narrow_patch c k id d d'.
Proof.
  destruct (ObjectId lib id) as [o|] eqn:Hid.
  2:{ destruct (patch_field_bad_id c k id payload clock d Hid) as (msg & ->).
      intros [= <- <-]. eauto using narrow_patch_refl. }
  destruct (down d) as [msg|] eqn:Hd.
  { rewrite (patch_field_down _ _ _ _ _ _ _ _ Hid Hd).
    intros [= <- <-]. eauto using narrow_patch_refl. }
  rewrite (patch_field_ok _ _ _ _ _ _ _ Hid Hd).
  destruct (existsb _ _) eqn:Hex; intros [= <- <-];
    [|eauto using narrow_patch_refl].
  eexists; split; [done|].
  destruct (update_first_some _
              (apply_set [(k, attr payload k); ("updated_at", VDate (clock 0%nat))])
              _ Hex) as (pre & x & post & Hl & Hx & _ & Hu).
  repeat split; simpl; [done..| |].
  - intros c' Hc. by apply coll_set_coll_ne.
  - right. exists pre, x, (apply_set [(k, attr payload k);
                              ("updated_at", VDate (clock 0%nat))] x), post.
    rewrite coll_set_coll_eq. repeat split; [done..| |].
    + simpl in Hx. apply N.eqb_eq in Hx. by rewrite Hx.
    + intros k' H1 H2. simpl. by apply dict_get_patch.
Qed.

Lemma StageUpdate_validate (k : string) body :
  model_validate [Field k TStr None] (VDict body) =
  match dict_get k body with
  | Some (VStr s) => inr [(k, VStr s)]
  | Some _ => inl [Invalid k]
  | None => inl [Missing k]
  end.
Proof.
  unfold model_validate; simpl.
  destruct (dict_get k body) as [v|]; [|done]. by destruct v.
Qed.

(** The status of a transition, by cause. *)
Lemma transition_status (m : model) c k id body clock w :
  let r := fst (serve_body m body
                  (fun payload => patch_field c k id payload clock) w) in
  (status_of r = 400%Z <->
   exists d p, w = Some d /\ model_validate m body = inr p /\
               (ObjectId lib id = None \/ down d <> None)) /\
  (status_of r = 500%Z <->
   w = None /\ exists p, model_validate m body = inr p).
Proof.
  simpl. unfold serve_body.
  destruct (model_validate m body) as [errs|p] eqn:Hm; simpl.
  { split; split; try done.
    - intros (d & p & _ & [=] & _).
    - intros (_ & p & [=]). }
  destruct w as [d|].
  2:{ unfold serve. rewrite patch_field_absent. simpl. split; split; try done.
      - intros (d & _ & [=] & _).
      - eauto. }
  unfold serve.
  destruct (ObjectId lib id) as [o|] eqn:Hid.
  2:{ destruct (patch_field_bad_id c k id p clock d Hid) as (msg & ->). simpl.
      split; split; try done.
      - intros _. exists d, p. auto.
      - intros [[=] _]. }
  destruct (down d) as [msg|] eqn:Hd.
  { rewrite (patch_field_down _ _ _ _ _ _ _ _ Hid Hd). simpl.
    split; split; try done.
    - intros _. exists d, p. split; [done|]. split; [done|]. right.
      intros E. simplify_eq.
    - intros [[=] _]. }
  rewrite (patch_field_ok _ _ _ _ _ _ _ Hid Hd). simpl.
  split; split; try done.
  - intros (d0 & p0 & [= <-] & _ & [H|H]); [done|]. by destruct H.
  - intros [[=] _].
Qed.

(** C3 (amended).  With the store reachable and an id that parses, POST
    /api/candidates/{id}/stage validates that [stage] is present and is a
    string, the empty string included: a missing or non-string stage is
    answered with 422 and nothing is written; for a string, the first
    candidate with that id gets [stage] set to it and [updated_at] to the
    current time, and the answer is the status-ok body; when no candidate
    has that id the store is left as it was and the answer is the same. *)
Theorem update_candidate_stage_sets_stage
    (candidate_id : string) (o : oid) (body : dict) (clock : nat -> Z)
    (d : database) :
  ObjectId lib candidate_id = Some o -> down d = None ->
  (dict_get "stage" body = None ->
     app (POST_api_candidates_stage candidate_id (VDict body)) clock (Some d) =
     (Unprocessable [Missing "stage"], Some d)) /\
  (forall v, dict_get "stage" body = Some v -> (forall s, v <> VStr s) ->
     app (POST_api_candidates_stage candidate_id (VDict body)) clock (Some d) =
     (Unprocessable [Invalid "stage"], Some d)) /\
  (forall s, dict_get "stage" body = Some (VStr s) ->
     exists d',
       app (POST_api_candidates_stage candidate_id (VDict body)) clock (Some d) =
         (OK ok_status, Some d') /\
       (forall pre x post,
          coll d "candidate" = pre ++ x :: post -> _id x = o ->
          (forall y, In y pre -> _id y <> o) ->
          exists x',
            coll d' "candidate" = pre ++ x' :: post /\ _id x' = o /\
            dict_get "stage" (fields x') = Some (VStr s) /\
            dict_get "updated_at" (fields x') = Some (VDate (clock 0%nat))) /\
       ((forall y, In y (coll d "candidate") -> _id y <> o) -> d' = d)).
Proof.
  intros Hid Hd. simpl. unfold serve_body, StageUpdate.
  rewrite (StageUpdate_validate "stage").
  split; [|split].
  - by intros ->.
  - intros v -> Hv. destruct v; try done. by destruct (Hv s).
  - intros s ->. unfold serve. rewrite update_candidate_stage_shape.
    rewrite (patch_field_ok _ _ _ _ _ _ _ Hid Hd).
    eexists; split; [reflexivity|]. split.
    + intros pre x post Hl Hx Hpre.
      assert (matches (QId o) x = true) as Hmx by (simpl; by apply N.eqb_eq).
      assert (forall y, In y pre -> matches (QId o) y = false) as Hmpre.
      { intros y Hy. simpl. apply N.eqb_neq. by apply Hpre. }
      assert (existsb (matches (QId o)) (coll d "candidate") = true) as ->.
      { apply existsb_exists. exists x. split; [|done].
        rewrite Hl. apply in_app_iff. right. by left. }
      rewrite coll_set_coll_eq, Hl, update_first_at by done.
      eexists; split; [reflexivity|].
      simpl. split; [done|].
      pose proof (dict_get_patch "stage" (VStr s) (clock 0%nat) (fields x))
        as (H1 & H2 & _).
      by split.
    + intros Hnone.
      assert (existsb (matches (QId o)) (coll d "candidate") = false) as ->; [|done].
      apply existsb_false_iff. intros y Hy. simpl. apply N.eqb_neq. by apply Hnone.
Qed.

(** C8 (amended).  On both transition routes the answer is 400 exactly when
    the body validates, the handle exists, and either the id does not parse
    or the store raises during the update; it is 500 exactly when the body
    validates and the handle is absent. *)
Theorem transition_bad_request_causes
    (id : string) (body : value) (clock : nat -> Z) (w : option database) :
  (status_of (fst (app (POST_api_candidates_stage id body) clock w)) = 400%Z <->
   exists d p, w = Some d /\ model_validate StageUpdate body = inr p /\
               (ObjectId lib id = None \/ down d <> None)) /\
  (status_of (fst (app (POST_api_candidates_stage id body) clock w)) = 500%Z <->
   w = None /\ exists p, model_validate StageUpdate body = inr p) /\
  (status_of (fst (app (POST_api_offers_status id body) clock w)) = 400%Z <->
   exists d p, w = Some d /\ model_validate OfferStatus body = inr p /\
               (ObjectId lib id = None \/ down d <> None)) /\
  (status_of (fst (app (POST_api_offers_status id body) clock w)) = 500%Z <->
   w = None /\ exists p, model_validate OfferStatus body = inr p).
Proof.
  pose proof (transition_status StageUpdate "candidate" "stage" id body clock w) as [H1 H2].
  pose proof (transition_status OfferStatus "offer" "status" id body clock w) as [H3 H4].
  auto.
Qed.

(** C9.  Whatever the request to a transition route and whatever its
    outcome, the store afterwards differs from the store before in at most
    one document of the candidate (resp. offer) collection, the one with
    the given id, and in that document in at most [stage] (resp. [status])
    and [updated_at]: its identifier and every other field, every other
    document of the collection in its place, every other collection, and
    the rest of the store are as before. *)
Theorem transition_frame
    (id : string) (body : value) (clock : nat -> Z) (w : option database) :
  (forall r w', app (POST_api_candidates_stage id body) clock w = (r, w') ->
     match w, w' with
     | Some d, Some d' => narrow_patch "candidate" "stage" id d d'
     | None, None => True
     | _, _ => False
     end) /\
  (forall r w', app (POST_api_offers_status id body) clock w = (r, w') ->
     match w, w' with
     | Some d, Some d' => narrow_patch "offer" "status" id d d'
     | None, None => True
     | _, _ => False
     end).
Proof.
  assert (forall m c k r w',
            serve_body m body (fun payload => patch_field c k id payload clock) w
              = (r, w') ->
            match w, w' with
            | Some d, Some d' => narrow_patch c k id d d'
            | None, None => True
            | _, _ => False
            end) as H.
  { intros m c k r w'. unfold serve_body.
    destruct (model_validate m body) as [errs|p].
    - intros [= <- <-]. destruct w; [apply narrow_patch_refl|done].
    - unfold serve. destruct w as [d|].
      + destruct (patch_field c k id p clock (Some d)) as [r0 w0] eqn:E.
        apply patch_field_frame in E as (d' & -> & Hn). by intros [= <- <-].
      + rewrite patch_field_absent. by intros [= <- <-]. }
  split; intros r w'; apply H.
Qed.

(** *** Metrics *)

Lemma py_bind_run {A B} (m : py A) (k : A -> py B) w a w' :
  m w = (inr a, w') -> (m ≫= k) w = k a w'.
Proof. intros H. unfold mbind, py_bind. by rewrite H. Qed.

Lemma count_documents_run c q d :
  down d = None ->
  count_documents c q (Some d) =
  (inr (length (List.filter (matches q) (coll d c))), Some d).
Proof.
  intros Hd. unfold count_documents, reach, db, mbind, py_bind, mret, py_ret.
  simpl. by rewrite Hd.
Qed.

Lemma find_one_run c q d :
  down d = None ->
  find_one c q (Some d) = (inr (List.find (matches q) (coll d c)), Some d).
Proof.
  intros Hd. unfold find_one, reach, db, mbind, py_bind, mret, py_ret.
  simpl. by rewrite Hd.
Qed.

Lemma count_run c q d :
  down d = None ->
  count c q (Some d) =
  (inr (length (List.filter (matches (default QAll q)) (coll d c))), Some d).
Proof.
  intros Hd. unfold count. rewrite (py_bind_run _ _ _ (Some d) (Some d)) by done.
  by apply count_documents_run.
Qed.

Lemma existsb_never {A} (l : list A) : existsb (fun _ => false) l = false.
Proof. induction l; simpl; done. Qed.

(** On a scalar field Mongo's [$in] is membership of the stored string. *)
Lemma cond_in_scalar k ss x :
  scalar_field k x ->
  matches (QField k (CIn ss)) x = field_in k ss x.
Proof.
  unfold scalar_field, field_in. simpl.
  destruct (dict_get k (fields x)) as [v|]; [|done].
  destruct v; simpl; try done; intros _; apply existsb_never.
Qed.

Lemma cond_nin_scalar k ss x :
  scalar_field k x ->
  matches (QField k (CNin ss)) x = negb (field_in k ss x).
Proof.
  unfold scalar_field, field_in. simpl.
  destruct (dict_get k (fields x)) as [v|]; [|done].
  destruct v; simpl; try done; intros _; by rewrite existsb_never.
Qed.

Lemma filter_ext_Forall {A} (f g : A -> bool) (P : A -> Prop) l :
  (forall x, P x -> f x = g x) -> Forall P l -> List.filter f l = List.filter g l.
Proof.
  intros Hfg H. induction H as [|x l Hx _ IH]; simpl; [done|].
  by rewrite (Hfg x Hx), IH.
Qed.

(** C5.  GET /api/metrics answers, from the store as it is at the request:
    with no handle every count is 0; with a reachable store [total_jobs] is
    the number of job documents, [active_candidates] the number of
    candidates whose stage is not one of rejected and hired,
    [offers_sent] the number of offers whose status is one of sent,
    accepted and declined (stage and status being scalars, as every route
    writes them); [time_to_fill] is the constant 24; the store is not
    written. *)
Theorem get_metrics_counts (clock : nat -> Z) (w : option database) :
  (w = None ->
     app GET_api_metrics clock w =
     (OK (VDict [ ("total_jobs", VInt 0); ("active_candidates", VInt 0);
                  ("offers_sent", VInt 0); ("time_to_fill", VInt 24) ]), None)) /\
  (forall d, w = Some d -> down d = None ->
     Forall (scalar_field "stage") (coll d "candidate") ->
     Forall (scalar_field "status") (coll d "offer") ->
     app GET_api_metrics clock w =
     (OK (VDict
            [ ("total_jobs", VInt (Z.of_nat (length (coll d "job"))));
              ("active_candidates",
               VInt (Z.of_nat (length (List.filter
                        (fun x => negb (field_in "stage" ["rejected"; "hired"] x))
                        (coll d "candidate")))));
              ("offers_sent",
               VInt (Z.of_nat (length (List.filter
                        (field_in "status" ["sent"; "accepted"; "declined"])
                        (coll d "offer")))));
              ("time_to_fill", VInt 24) ]), Some d)).
Proof.
  split.
  - by intros ->.
  - intros d -> Hd Hst Hof. simpl. unfold serve, get_metrics.
    rewrite (py_bind_run _ _ _ _ _ (count_run "job" None d Hd)).
    rewrite (py_bind_run _ _ _ _ _ (count_run "candidate" _ d Hd)).
    rewrite (py_bind_run _ _ _ _ _ (count_run "offer" _ d Hd)).
    simpl default. rewrite filter_all_true.
    rewrite (filter_ext_Forall _ _ _ _ (cond_nin_scalar "stage" _) Hst).
    rewrite (filter_ext_Forall _ _ _ _ (cond_in_scalar "status" _) Hof).
    reflexivity.
Qed.

(** *** Seeding *)

Lemma fold_add_down c docs d :
  down (fold_left (fun acc payload => add_document c payload acc) docs d) = down d.
Proof. revert d. induction docs as [|p docs IH]; intros d; simpl; [done|]. by rewrite IH. Qed.

Lemma fold_add_coll_ne c c' docs d :
  c <> c' ->
  coll (fold_left (fun acc payload => add_document c payload acc) docs d) c' = coll d c'.
Proof.
  intros Hne. revert d. induction docs as [|p docs IH]; intros d; simpl; [done|].
  by rewrite IH, coll_add_document_ne.
Qed.

Lemma fold_add_coll_length c docs d :
  length (coll (fold_left (fun acc payload => add_document c payload acc) docs d) c) =
  (length (coll d c) + length docs)%nat.
Proof.
  revert d. induction docs as [|p docs IH]; intros d; simpl; [lia|].
  rewrite IH, coll_add_document_eq, length_app. simpl. lia.
Qed.

Lemma mapM_create_run c docs d :
  down d = None ->
  exists ids,
    mapM (create_document c) docs (Some d) =
    (inr ids, Some (fold_left (fun acc payload => add_document c payload acc) docs d)).
Proof.
  revert d. induction docs as [|p docs IH]; intros d Hd; simpl.
  - by eexists.
  - destruct (IH (add_document c p d) Hd) as (ids & Hids).
    eexists.
    rewrite (py_bind_run _ _ _ _ _ (create_document_run c p d Hd)).
    rewrite (py_bind_run _ _ _ _ _ Hids). reflexivity.
Qed.

Lemma seed_block_run c docs d :
  down d = None ->
  (if Nat.eqb (length (coll d c)) 0
   then mapM (create_document c) docs;; mret tt
   else mret tt) (Some d) = (inr tt, Some (seed_step c docs d)).
Proof.
  intros Hd. unfold seed_step. destruct (Nat.eqb _ _); [|done].
  destruct (mapM_create_run c docs d Hd) as (ids & Hids).
  by rewrite (py_bind_run _ _ _ _ _ Hids).
Qed.

Lemma seed_step_down c docs d : down (seed_step c docs d) = down d.
Proof. unfold seed_step. destruct (Nat.eqb _ _); [apply fold_add_down|done]. Qed.

Lemma seed_step_coll_ne c c' docs d :
  c <> c' -> coll (seed_step c docs d) c' = coll d c'.
Proof.
  intros. unfold seed_step. destruct (Nat.eqb _ _); [by apply fold_add_coll_ne|done].
Qed.

Lemma seed_step_kept c docs d :
  coll d c <> [] -> seed_step c docs d = d.
Proof.
  intros H. unfold seed_step. destruct (coll d c); [done|]. reflexivity.
Qed.

Lemma seed_step_filled c docs d :
  docs <> [] -> coll (seed_step c docs d) c <> [].
Proof.
  intros Hdocs. unfold seed_step.
  destruct (Nat.eqb (length (coll d c)) 0) eqn:E.
  - intros H. apply (f_equal length) in H.
    rewrite fold_add_coll_length in H. destruct docs; [done|]. simpl in H. lia.
  - intros H. rewrite H in E. done.
Qed.

Lemma seed_demo_data_run clock d :
  down d = None ->
  seed_demo_data clock (Some d) = (inr ok_status, Some (seeded clock d)).
Proof.
  intros Hd. unfold seed_demo_data, seeded.
  rewrite (py_bind_run _ _ _ (Some d) (Some d)) by done.
  rewrite (py_bind_run _ _ _ _ _ (count_documents_run "job" QAll d Hd)).
  rewrite filter_all_true.
  rewrite (py_bind_run _ _ _ _ _ (seed_block_run "job" _ d Hd)).
  set (d1 := seed_step "job" (sample_jobs clock) d).
  assert (down d1 = None) as Hd1 by (unfold d1; by rewrite seed_step_down).
  rewrite (py_bind_run _ _ _ _ _ (count_documents_run "candidate" QAll d1 Hd1)).
  rewrite filter_all_true.
  rewrite (py_bind_run _ _ _ _ _ (seed_block_run "candidate" _ d1 Hd1)).
  set (d2 := seed_step "candidate" sample_candidates d1).
  assert (down d2 = None) as Hd2 by (unfold d2; by rewrite seed_step_down).
  rewrite (py_bind_run _ _ _ _ _ (count_documents_run "interview" QAll d2 Hd2)).
  rewrite filter_all_true.
  destruct (Nat.eqb (length (coll d2 "interview")) 0); [|done].
  unfold mbind at 1, py_bind at 1.
  rewrite (py_bind_run _ _ _ _ _ (find_one_run "candidate" _ d2 Hd2)).
  destruct (List.find _ _) as [c|]; [|done].
  by rewrite (py_bind_run _ _ _ _ _ (create_document_run "interview" _ d2 Hd2)).
Qed.

(** What [seeded] does to each collection. *)
Lemma seeded_coll clock d c :
  coll (seeded clock d) c =
  if String.eqb c "job" then coll (seed_step "job" (sample_jobs clock) d) "job"
  else if String.eqb c "candidate"
       then coll (seed_step "candidate" sample_candidates
                    (seed_step "job" (sample_jobs clock) d)) "candidate"
  else if String.eqb c "interview"
       then coll (seeded clock d) "interview"
  else coll d c.
Proof.
  destruct (String.eqb c "job") eqn:Ej.
  { apply String.eqb_eq in Ej. subst c. unfold seeded.
    repeat case_match; rewrite ?coll_add_document_ne by done;
      by rewrite seed_step_coll_ne. }
  destruct (String.eqb c "candidate") eqn:Ec.
  { apply String.eqb_eq in Ec. subst c. unfold seeded.
    repeat case_match; rewrite ?coll_add_document_ne by done; done. }
  destruct (String.eqb c "interview") eqn:Ei.
  { apply String.eqb_eq in Ei. by subst c. }
  apply String.eqb_neq in Ej, Ec, Ei. unfold seeded.
  repeat case_match; rewrite ?coll_add_document_ne by done;
    by rewrite !seed_step_coll_ne.
Qed.

Lemma seeded_idempotent clock clock' d :
  seeded clock' (seeded clock d) = seeded clock d.
Proof.
  unfold seeded at 2 3.
  set (d2 := seed_step "candidate" sample_candidates
               (seed_step "job" (sample_jobs clock) d)).
  assert (coll d2 "job" <> []) as Hj.
  { unfold d2. rewrite seed_step_coll_ne by done. by apply seed_step_filled. }
  assert (coll d2 "candidate" <> []) as Hc by (by apply seed_step_filled).
  assert (forall d3, coll d3 "job" = coll d2 "job" ->
            coll d3 "candidate" = coll d2 "candidate" ->
            seed_step "candidate" sample_candidates
              (seed_step "job" (sample_jobs clock') d3) = d3) as Hkept.
  { intros d3 E1 E2. rewrite (seed_step_kept "job") by congruence.
    apply seed_step_kept. congruence. }
  destruct (Nat.eqb (length (coll d2 "interview")) 0) eqn:Et.
  - destruct (List.find _ (coll d2 "candidate")) as [c|] eqn:Ef.
    + unfold seeded. rewrite Hkept by (by rewrite coll_add_document_ne).
      rewrite coll_add_document_eq, length_app. simpl.
      by replace (length (coll d2 "interview") + 1)%nat
        with (S (length (coll d2 "interview"))) by lia.
    + unfold seeded. rewrite Hkept by done. by rewrite Et, Ef.
  - unfold seeded. rewrite Hkept by done. by rewrite Et.
Qed.

(** C6.  POST /api/seed with no handle is answered with 500.  With a
    reachable store it answers with the status-ok body and fills each of
    the job, candidate and interview collections only when it is empty
    (two jobs, three candidates); a second call is answered the same and
    leaves the store, and so every document count, as the first call left
    it. *)
Theorem seed_is_idempotent (clock clock' : nat -> Z) (w : option database) :
  (w = None ->
     app POST_api_seed clock w = (Failure 500 "Database not available", None)) /\
  (forall d, w = Some d -> down d = None ->
     exists d1 d2,
       app POST_api_seed clock w = (OK ok_status, Some d1) /\
       app POST_api_seed clock' (Some d1) = (OK ok_status, Some d2) /\
       d2 = d1 /\
       (forall c, length (coll d2 c) = length (coll d1 c)) /\
       (forall c, coll d c <> [] -> coll d1 c = coll d c) /\
       (forall c, ~ In c ["job"; "candidate"; "interview"] -> coll d1 c = coll d c) /\
       (coll d "job" = [] -> length (coll d1 "job") = 2%nat) /\
       (coll d "candidate" = [] -> length (coll d1 "candidate") = 3%nat)).
Proof.
  split; [by intros ->|].
  intros d -> Hd. exists (seeded clock d), (seeded clock d).
  assert (down (seeded clock d) = None) as Hd1.
  { unfold seeded. repeat case_match; simpl; by rewrite !seed_step_down. }
  simpl. unfold serve.
  rewrite (seed_demo_data_run clock d Hd), (seed_demo_data_run clock' _ Hd1).
  rewrite seeded_idempotent. simpl.
  split; [done|]. split; [done|]. split; [done|]. split; [done|].
  split; [|split; [|split]].
  - intros c Hc. rewrite seeded_coll.
    destruct (String.eqb c "job") eqn:Ej.
    { apply String.eqb_eq in Ej. subst c. by rewrite seed_step_kept. }
    destruct (String.eqb c "candidate") eqn:Ec.
    { apply String.eqb_eq in Ec. subst c.
      rewrite (seed_step_kept "candidate") by (by rewrite seed_step_coll_ne).
      by rewrite seed_step_coll_ne. }
    destruct (String.eqb c "interview") eqn:Ei; [|done].
    apply String.eqb_eq in Ei. subst c. unfold seeded.
    rewrite !seed_step_coll_ne by done.
    destruct (coll d "interview") eqn:E; [done|]. simpl.
    by rewrite !seed_step_coll_ne.
  - intros c Hc. rewrite seeded_coll. simpl in Hc.
    destruct (String.eqb c "job") eqn:Ej.
    { apply String.eqb_eq in Ej. exfalso. apply Hc. subst c. auto. }
    destruct (String.eqb c "candidate") eqn:Ec.
    { apply String.eqb_eq in Ec. exfalso. apply Hc. subst c. auto. }
    destruct (String.eqb c "interview") eqn:Ei; [|done].
    apply String.eqb_eq in Ei. exfalso. apply Hc. subst c. auto.
  - intros E. rewrite seeded_coll. simpl String.eqb. cbv iota.
    unfold seed_step. rewrite E. simpl Nat.eqb. cbv iota.
    by rewrite fold_add_coll_length, E.
  - intros E. rewrite seeded_coll. simpl String.eqb. cbv iota.
    assert (coll (seed_step "job" (sample_jobs clock) d) "candidate" = []) as E'
      by (by rewrite seed_step_coll_ne).
    unfold seed_step at 1. rewrite E'. simpl Nat.eqb. cbv iota.
    by rewrite fold_add_coll_length, E'.
Qed.

(** *** Stage and status stay scalars

    The hypothesis of the metrics theorem holds of the empty store and is
    kept by every route. *)

Lemma py_bind_raise {A B} (m : py A) (k : A -> py B) w e w' :
  m w = (inl e, w') -> (m ≫= k) w = (inl e, w').
Proof. intros H. unfold mbind, py_bind. by rewrite H. Qed.

Lemma count_documents_down c q d msg :
  down d = Some msg ->
  count_documents c q (Some d) = (inl (PyMongoError msg), Some d).
Proof.
  intros Hd. unfold count_documents, reach, db, raise, mbind, py_bind.
  simpl. by rewrite Hd.
Qed.

Lemma count_down c q d msg :
  down d = Some msg ->
  count c q (Some d) = (inl (PyMongoError msg), Some d).
Proof.
  intros Hd. unfold count. rewrite (py_bind_run _ _ _ (Some d) (Some d)) by done.
  by apply count_documents_down.
Qed.

Lemma get_documents_down c d msg :
  down d = Some msg ->
  get_documents c (Some d) = (inl (PyMongoError msg), Some d).
Proof.
  intros Hd. unfold get_documents, find, reach, db, raise, mbind, py_bind.
  simpl. by rewrite Hd.
Qed.

Lemma scalar_field_str k x s :
  dict_get k (fields x) = Some (VStr s) -> scalar_field k x.
Proof. unfold scalar_field. by intros ->. Qed.

Lemma scalar_store_add c p d :
  scalar_store d ->
  (c = "candidate" -> exists s, dict_get "stage" p = Some (VStr s)) ->
  (c = "offer" -> exists s, dict_get "status" p = Some (VStr s)) ->
  scalar_store (add_document c p d).
Proof.
  intros [Hc Ho] H1 H2. split.
  - destruct (decide (c = "candidate")) as [->|Hne].
    + rewrite coll_add_document_eq. apply Forall_app. split; [done|].
      destruct (H1 eq_refl) as (s & Hs).
      constructor; [|constructor]. by apply (scalar_field_str _ _ s).
    + by rewrite coll_add_document_ne.
  - destruct (decide (c = "offer")) as [->|Hne].
    + rewrite coll_add_document_eq. apply Forall_app. split; [done|].
      destruct (H2 eq_refl) as (s & Hs).
      constructor; [|constructor]. by apply (scalar_field_str _ _ s).
    + by rewrite coll_add_document_ne.
Qed.

Lemma scalar_store_fold_add c docs d :
  scalar_store d ->
  (c = "candidate" ->
   Forall (fun p => exists s, dict_get "stage" p = Some (VStr s)) docs) ->
  c <> "offer" ->
  scalar_store (fold_left (fun acc payload => add_document c payload acc) docs d).
Proof.
  intros Hd Hdocs Hne. revert d Hd.
  induction docs as [|p docs IH]; intros d Hd; simpl; [done|].
  apply IH.
  - intros Hc. specialize (Hdocs Hc). by inversion Hdocs.
  - apply scalar_store_add; [done| |done].
    intros Hc. specialize (Hdocs Hc). by inversion Hdocs.
Qed.

Lemma scalar_store_seeded clock d : scalar_store d -> scalar_store (seeded clock d).
Proof.
  intros Hd.
  assert (scalar_store (seed_step "job" (sample_jobs clock) d)) as H1.
  { unfold seed_step. destruct (Nat.eqb _ _); [|done].
    by apply scalar_store_fold_add. }
  assert (scalar_store (seed_step "candidate" sample_candidates
                          (seed_step "job" (sample_jobs clock) d))) as H2.
  { unfold seed_step at 1. destruct (Nat.eqb _ _); [|done].
    apply scalar_store_fold_add; [done| |done].
    intros _. repeat constructor; by eexists. }
  unfold seeded. destruct (Nat.eqb _ _); [|done].
  destruct (List.find _ _); [|done].
  by apply scalar_store_add.
Qed.

Lemma update_first_Forall (P : document -> Prop) pr f l :
  (forall x, P x -> P (f x)) -> Forall P l -> Forall P (update_first pr f l).
Proof.
  intros Hf H. induction H as [|x l Hx Hl IH]; simpl; [done|].
  destruct (pr x); constructor; auto.
Qed.

Lemma scalar_store_patch c k o s t d :
  scalar_store d -> k <> "updated_at" ->
  scalar_store
    (set_coll c
       (update_first (matches (QId o))
          (apply_set [(k, VStr s); ("updated_at", VDate t)]) (coll d c)) d).
Proof.
  intros [Hc Ho] Hk.
  assert (forall f, Forall (scalar_field f) (coll d c) ->
            Forall (scalar_field f)
              (update_first (matches (QId o))
                 (apply_set [(k, VStr s); ("updated_at", VDate t)]) (coll d c)))
    as Hup.
  { intros f. apply update_first_Forall. intros x Hx.
    unfold scalar_field in *. unfold apply_set; cbn [fields].
    pose proof (dict_get_patch k (VStr s) t (fields x)) as (H1 & H2 & H3).
    destruct (decide (f = k)) as [->|Hfk].
    - rewrite H1. apply String.eqb_neq in Hk. by rewrite Hk.
    - destruct (decide (f = "updated_at")) as [->|Hfu]; [by rewrite H2|].
      by rewrite H3. }
  split.
  - destruct (decide (c = "candidate")) as [->|Hne].
    + rewrite coll_set_coll_eq. by apply Hup.
    + by rewrite coll_set_coll_ne.
  - destruct (decide (c = "offer")) as [->|Hne].
    + rewrite coll_set_coll_eq. by apply Hup.
    + by rewrite coll_set_coll_ne.
Qed.

Lemma validated_str_field (m : model) body p fl :
  NoDup (map name m) -> In fl m -> annotation fl = TStr ->
  (forall v, default_value fl = Some v -> exists s, v = VStr s) ->
  validate_fields m body = ([], p) ->
  exists s, dict_get (name fl) p = Some (VStr s).
Proof.
  intros Hnd Hfl Hann Hdef Hv.
  destruct (dict_get (name fl) body) as [v|] eqn:Hget.
  - pose proof (validate_fields_present m body fl v Hnd Hfl Hget) as Hp.
    rewrite Hv, Hann in Hp.
    destruct (validate_type TStr v) as [w|] eqn:Hw; [|destruct Hp].
    apply validate_str_inv in Hw as (s & _ & ->). eauto.
  - pose proof (validate_fields_absent m body fl Hnd Hfl Hget) as Hp.
    rewrite Hv in Hp.
    destruct (default_value fl) as [v|]; [|destruct Hp].
    destruct (Hdef v eq_refl) as (s & ->). eauto.
Qed.

Lemma scalar_store_patch_field c k id body clock d r w' :
  scalar_store d -> k <> "updated_at" ->
  serve_body [Field k TStr None] body
    (fun payload => patch_field c k id payload clock) (Some d) = (r, w') ->
  exists d', w' = Some d' /\ scalar_store d'.
Proof.
  intros Hs Hk. unfold serve_body.
  destruct (model_validate [Field k TStr None] body) as [errs|p] eqn:Hm.
  { intros [= <- <-]. eauto. }
  pose proof (model_validate_inr _ _ _ Hm) as (kvs & -> & _).
  rewrite StageUpdate_validate in Hm.
  destruct (dict_get k kvs) as [[]|]; simplify_eq.
  unfold serve.
  destruct (ObjectId lib id) as [o|] eqn:Hid.
  2:{ destruct (patch_field_bad_id c k id [(k, VStr s)] clock d Hid) as (msg & ->).
      intros [= <- <-]. eauto. }
  destruct (down d) as [msg|] eqn:Hd.
  { rewrite (patch_field_down _ _ _ _ _ _ _ _ Hid Hd). intros [= <- <-]. eauto. }
  rewrite (patch_field_ok _ _ _ _ _ _ _ Hid Hd).
  intros [= <- <-]. eexists; split; [done|].
  destruct (existsb _ _); [|done].
  unfold attr; simpl. rewrite String.eqb_refl. simpl.
  by apply scalar_store_patch.
Qed.

Lemma scalar_store_create e path_id body clock d r w' :
  scalar_store d ->
  app (create_request e path_id body) clock (Some d) = (r, w') ->
  exists d', w' = Some d' /\ scalar_store d'.
Proof.
  intros Hs.
  destruct (model_validate (request_model e) body) as [errs|p] eqn:Hm.
  { rewrite (app_create_invalid _ _ _ _ _ _ Hm). intros [= <- <-]. eauto. }
  destruct (down d) as [msg|] eqn:Hd.
  { assert (snd (app (create_request e path_id body) clock (Some d)) = Some d) as E.
    { destruct e; simpl in *; unfold serve_body; rewrite Hm;
        unfold serve, create_job, create_candidate, create_interview,
          create_feedback, create_offer, create_onboarding, create_message;
        by erewrite py_bind_raise by (by apply create_document_down). }
    intros H. rewrite H in E. simpl in E. eauto. }
  rewrite (app_create_valid _ _ _ _ _ _ Hd Hm). intros [= <- <-].
  eexists; split; [done|].
  pose proof (model_validate_inr _ _ _ Hm) as (kvs & -> & Hv).
  pose proof (request_model_NoDup e) as Hnd.
  apply scalar_store_add; [done|..].
  - intros Hc. destruct e; try discriminate Hc. simpl created_payload.
    apply (validated_str_field CandidateIn kvs p
             (Field "stage" TStr (Some (VStr "applied")))); try done.
    + simpl; pick_member.
    + intros v [= <-]. eauto.
  - intros Hc. destruct e; try discriminate Hc. simpl created_payload.
    apply (validated_str_field OfferIn kvs p
             (Field "status" TStr (Some (VStr "draft")))); try done.
    + simpl; pick_member.
    + intros v [= <-]. eauto.
Qed.

Lemma scalar_store_list c d r w' :
  serve (list_documents c) (Some d) = (r, w') -> w' = Some d.
Proof.
  unfold serve, list_documents.
  rewrite (py_bind_run _ _ _ (Some d) (Some d)) by done.
  destruct (down d) as [msg|] eqn:Hd.
  - erewrite py_bind_raise by (by apply get_documents_down). by intros [= <- <-].
  - erewrite py_bind_run by (by apply get_documents_run). by intros [= <- <-].
Qed.

(** Every route keeps stage and status scalars. *)
Lemma app_keeps_scalar_store req clock d r w' :
  scalar_store d -> app req clock (Some d) = (r, w') ->
  exists d', w' = Some d' /\ scalar_store d'.
Proof.
  intros Hs.
  destruct req as [| | |body| |body|cid body| |body|iid body| |body|oid' body|
                   |body| |body].
  - simpl. unfold serve. destruct (down d) as [msg|] eqn:Hd.
    + unfold seed_demo_data.
      rewrite (py_bind_run _ _ _ (Some d) (Some d)) by done.
      erewrite py_bind_raise by (by apply count_documents_down).
      intros [= <- <-]. eauto.
    + rewrite (seed_demo_data_run clock d Hd). intros [= <- <-].
      eauto using scalar_store_seeded.
  - simpl. unfold serve, get_metrics. destruct (down d) as [msg|] eqn:Hd.
    + erewrite py_bind_raise by (by apply count_down).
      intros [= <- <-]. eauto.
    + rewrite (py_bind_run _ _ _ _ _ (count_run "job" None d Hd)).
      rewrite (py_bind_run _ _ _ _ _ (count_run "candidate" _ d Hd)).
      rewrite (py_bind_run _ _ _ _ _ (count_run "offer" _ d Hd)).
      intros [= <- <-]. eauto.
  - intros H. apply scalar_store_list in H as ->; eauto.
  - apply (scalar_store_create job EmptyString); done.
  - intros H. apply scalar_store_list in H as ->; eauto.
  - apply (scalar_store_create candidate EmptyString); done.
  - simpl. rewrite update_candidate_stage_shape.
    by apply scalar_store_patch_field.
  - intros H. apply scalar_store_list in H as ->; eauto.
  - apply (scalar_store_create interview EmptyString); done.
  - apply (scalar_store_create feedback iid); done.
  - intros H. apply scalar_store_list in H as ->; eauto.
  - apply (scalar_store_create offer EmptyString); done.
  - simpl. rewrite update_offer_status_shape.
    by apply scalar_store_patch_field.
  - intros H. apply scalar_store_list in H as ->; eauto.
  - apply (scalar_store_create onboardingtask EmptyString); done.
  - intros H. apply scalar_store_list in H as ->; eauto.
  - apply (scalar_store_create message EmptyString); done.
Qed.

(** *** The empty store *)

Lemma coll_empty_db c : coll empty_db c = [].
Proof. unfold coll, empty_db; simpl. by rewrite lookup_empty. Qed.

Lemma scalar_store_empty_db : scalar_store empty_db.
Proof. split; rewrite coll_empty_db; constructor. Qed.

Lemma healthy_empty_db : healthy empty_db.
Proof.
  split; [done|]. split; [done|].
  intros c x. rewrite coll_empty_db. intros [].
Qed.

(** ** More of the API *)

(** *** What a create route does with a body *)

Lemma validate_fields_missing (fs : model) body k :
  In (Missing k) (fst (validate_fields fs body)) ->
  exists f, In f fs /\ name f = k /\ dict_get k body = None /\
            default_value f = None.
Proof.
  induction fs as [|f fs IH]; simpl; [done|].
  destruct (validate_fields fs body) as [errs out]. simpl in IH.
  destruct (dict_get (name f) body) as [v|] eqn:Hget.
  - destruct (validate_type (annotation f) v); simpl.
    + intros H. destruct (IH H) as (g & ? & ? & ? & ?). exists g. auto.
    + intros [[=]|H]. destruct (IH H) as (g & ? & ? & ? & ?). exists g. auto.
  - destruct (default_value f) eqn:Hdef; simpl.
    + intros H. destruct (IH H) as (g & ? & ? & ? & ?). exists g. auto.
    + intros [[= <-]|H].
      * exists f. auto.
      * destruct (IH H) as (g & ? & ? & ? & ?). exists g. auto.
Qed.

Lemma validate_fields_no_object_error (fs : model) body :
  ~ In NotAnObject (fst (validate_fields fs body)).
Proof.
  induction fs as [|f fs IH]; simpl; [tauto|].
  destruct (validate_fields fs body) as [errs out]. simpl in IH.
  destruct (dict_get (name f) body) as [v|];
    [destruct (validate_type _ _)|destruct (default_value f)];
    simpl; intros H; try tauto; destruct H as [H|H]; try discriminate H; tauto.
Qed.

Lemma serve_not_unprocessable (h : py value) w errs w' :
  serve h w <> (Unprocessable errs, w').
Proof.
  unfold serve. destruct (h w) as [[e|v] w0]; simpl; [destruct e|]; congruence.
Qed.

(** A create route is [serve_body] of the entity's request model. *)
Lemma app_create_unfold e path_id body clock w :
  exists h,
    app (create_request e path_id body) clock w =
    serve_body (request_model e) body h w.
Proof. destruct e; simpl; eauto. Qed.

Lemma app_create_rejected e path_id body clock w errs w' :
  app (create_request e path_id body) clock w = (Unprocessable errs, w') ->
  model_validate (request_model e) body = inl errs /\ w' = w.
Proof.
  destruct (app_create_unfold e path_id body clock w) as (h & ->).
  unfold serve_body.
  destruct (model_validate (request_model e) body) as [errs0|p].
  - by intros [= <- <-].
  - intros H. by apply serve_not_unprocessable in H.
Qed.

(** X1.  A create route answers 422 exactly when some field that the
    request model declares is required and absent from the body, or present
    with a value that its annotation does not accept; and a 422 never comes
    with a write. *)
Theorem create_rejected_iff
    (e : entity) (path_id : string) (body : dict) (clock : nat -> Z)
    (w : option database) :
  ((exists errs,
      app (create_request e path_id (VDict body)) clock w = (Unprocessable errs, w))
   <->
   exists fl, In fl (request_model e) /\
     match dict_get (name fl) body with
     | None => default_value fl = None
     | Some v => validate_type (annotation fl) v = None
     end) /\
  (forall errs w',
     app (create_request e path_id (VDict body)) clock w = (Unprocessable errs, w') ->
     w' = w).
Proof.
  pose proof (request_model_NoDup e) as Hnd.
  split; [split|].
  - intros (errs & H). apply app_create_rejected in H as [Hm _].
    apply model_validate_inl in Hm as [-> Hne].
    destruct (fst (validate_fields (request_model e) body)) as [|err errs] eqn:E;
      [done|].
    assert (In err (fst (validate_fields (request_model e) body))) as Hin
      by (rewrite E; by left).
    destruct err as [k|k|].
    + apply validate_fields_missing in Hin as (f & Hf & <- & Hget & Hdef).
      exists f. by rewrite Hget.
    + apply validate_fields_invalid in Hin as (f & v & Hf & <- & Hget & Hv).
      exists f. by rewrite Hget.
    + by apply validate_fields_no_object_error in Hin.
  - intros (fl & Hfl & Hbad).
    assert (exists errs, model_validate (request_model e) (VDict body) = inl errs)
      as (errs & Hm).
    { destruct (model_validate (request_model e) (VDict body)) as [errs|p] eqn:Hm;
        [eauto|].
      apply model_validate_inr in Hm as (kvs & [= <-] & Hm).
      destruct (dict_get (name fl) body) as [v|] eqn:Hget.
      - pose proof (validate_fields_present _ body fl v Hnd Hfl Hget) as Hp.
        rewrite Hbad, Hm in Hp. destruct Hp.
      - pose proof (validate_fields_absent _ body fl Hnd Hfl Hget) as Hp.
        rewrite Hbad, Hm in Hp. destruct Hp. }
    exists errs. by apply app_create_invalid.
  - intros errs w' H. by apply app_create_rejected in H as [_ ->].
Qed.

Lemma default_field_not_path e fl v :
  In fl (request_model e) -> default_value fl = Some v ->
  name fl <> "interview_id".
Proof.
  destruct e; simpl; intros H Hd;
    repeat (destruct H as [<-|H]; [simpl in *; congruence|]); destruct H.
Qed.

(** X2.  When a body that validates leaves out a field that the request
    model declares with a default, the document handed to the store holds
    the default for it. *)
Theorem create_fills_default
    (e : entity) (fl : field) (v : value) (path_id : string) (body p : dict)
    (clock : nat -> Z) (d : database) :
  In fl (request_model e) -> default_value fl = Some v ->
  dict_get (name fl) body = None ->
  down d = None ->
  model_validate (request_model e) (VDict body) = inr p ->
  dict_get (name fl) (created_payload e path_id p) = Some v /\
  app (create_request e path_id (VDict body)) clock (Some d) =
    (OK (id_body (oid_str (next_oid d))),
     Some (add_document (collection_of e) (created_payload e path_id p) d)).
Proof.
  intros Hfl Hdef Hget Hd Hm. split; [|by apply app_create_valid].
  rewrite created_payload_get by (by eapply default_field_not_path).
  apply model_validate_inr in Hm as (kvs & [= <-] & Hm).
  pose proof (validate_fields_absent _ body fl (request_model_NoDup e) Hfl Hget) as Hp.
  by rewrite Hdef, Hm in Hp.
Qed.

Lemma validate_fields_undeclared (fs : model) k v body :
  ~ In k (map name fs) ->
  validate_fields fs (dict_set k v body) = validate_fields fs body.
Proof.
  induction fs as [|f fs IH]; simpl; [done|].
  intros Hk. rewrite IH by tauto.
  rewrite dict_get_set_ne; [done|]. intros ->. tauto.
Qed.

(** X3.  A key that the request model of an entity does not declare is
    ignored by its create route: setting it in the body, to any value,
    changes neither the answer nor the store. *)
Theorem create_ignores_undeclared_key
    (e : entity) (k : string) (v : value) (path_id : string) (body : dict)
    (clock : nat -> Z) (w : option database) :
  ~ In k (map name (request_model e)) ->
  app (create_request e path_id (VDict (dict_set k v body))) clock w =
  app (create_request e path_id (VDict body)) clock w.
Proof.
  intros Hk.
  assert (model_validate (request_model e) (VDict (dict_set k v body)) =
          model_validate (request_model e) (VDict body)) as E.
  { unfold model_validate. by rewrite validate_fields_undeclared. }
  destruct e; cbn [request_model] in E; simpl; unfold serve_body; by rewrite E.
Qed.


Lemma validate_fields_dump_keys (fs : model) body p :
  validate_fields fs body = ([], p) -> map fst p = map name fs.
Proof.
  intros H. apply validate_fields_ok in H.
  induction H as [|f kv fs p [Hk _] _ IH]; simpl; congruence.
Qed.


(** *** Reading *)

Lemma get_metrics_run d :
  down d = None ->
  get_metrics (Some d) =
  (inr (metrics_body
          (length (coll d "job"))
          (length (List.filter
                     (matches (QField "stage" (CNin ["rejected"; "hired"])))
                     (coll d "candidate")))
          (length (List.filter
                     (matches (QField "status" (CIn ["sent"; "accepted"; "declined"])))
                     (coll d "offer")))),
   Some d).
Proof.
  intros Hd. unfold get_metrics.
  rewrite (py_bind_run _ _ _ _ _ (count_run "job" None d Hd)).
  rewrite (py_bind_run _ _ _ _ _ (count_run "candidate" _ d Hd)).
  rewrite (py_bind_run _ _ _ _ _ (count_run "offer" _ d Hd)).
  simpl default. by rewrite filter_all_true.
Qed.

Lemma get_metrics_down d msg :
  down d = Some msg ->
  get_metrics (Some d) = (inl (PyMongoError msg), Some d).
Proof.
  intros Hd. unfold get_metrics.
  by erewrite py_bind_raise by (by apply count_down).
Qed.

(** The conditional count of [analytics_placeholder]. *)
Lemma count_if_db_run c q d :
  down d = None ->
  (db ≫= λ w : option database,
     match w with
     | Some _ => count_documents c q
     | None => mret 0%nat
     end) (Some d) =
  (inr (length (List.filter (matches q) (coll d c))), Some d).
Proof.
  intros Hd. rewrite (py_bind_run _ _ _ (Some d) (Some d)) by done.
  by apply count_documents_run.
Qed.

Lemma count_if_db_down c q d msg :
  down d = Some msg ->
  (db ≫= λ w : option database,
     match w with
     | Some _ => count_documents c q
     | None => mret 0%nat
     end) (Some d) = (inl (PyMongoError msg), Some d).
Proof.
  intros Hd. rewrite (py_bind_run _ _ _ (Some d) (Some d)) by done.
  by apply count_documents_down.
Qed.

Lemma analytics_run d :
  down d = None ->
  analytics_placeholder (Some d) =
  (inr (analytics_body
          (length (coll d "candidate")) (length (coll d "interview"))
          (length (coll d "offer"))
          (length (List.filter (matches (QField "stage" (CEq "hired")))
                     (coll d "candidate")))),
   Some d).
Proof.
  intros Hd. unfold analytics_placeholder.
  rewrite (py_bind_run _ _ _ _ _ (count_if_db_run "candidate" QAll d Hd)).
  rewrite (py_bind_run _ _ _ _ _ (count_if_db_run "interview" QAll d Hd)).
  rewrite (py_bind_run _ _ _ _ _ (count_if_db_run "offer" QAll d Hd)).
  rewrite (py_bind_run _ _ _ _ _ (count_if_db_run "candidate" _ d Hd)).
  by rewrite !filter_all_true.
Qed.

Lemma analytics_down d msg :
  down d = Some msg ->
  analytics_placeholder (Some d) = (inl (PyMongoError msg), Some d).
Proof.
  intros Hd. unfold analytics_placeholder.
  by erewrite py_bind_raise by (by apply count_if_db_down).
Qed.

Lemma seed_demo_data_down clock d msg :
  down d = Some msg ->
  seed_demo_data clock (Some d) = (inl (PyMongoError msg), Some d).
Proof.
  intros Hd. unfold seed_demo_data.
  rewrite (py_bind_run _ _ _ (Some d) (Some d)) by done.
  by erewrite py_bind_raise by (by apply count_documents_down).
Qed.

Lemma cond_eq_scalar k s x :
  scalar_field k x -> matches (QField k (CEq s)) x = field_in k [s] x.
Proof.
  unfold scalar_field, field_in. simpl.
  destruct (dict_get k (fields x)) as [v|]; [|done].
  destruct v; simpl; try done. by rewrite orb_false_r.
Qed.

(** X5.  A route declared with [@app.get] never writes: whatever the state
    of the store (absent, unreachable, reachable), it is the same after the
    request; and with the handle absent each of them still answers 200. *)
Theorem get_route_never_writes
    (r : route) (clock : nat -> Z) (w : option database) :
  is_get r = true ->
  snd (dispatch r clock w) = w /\
  (w = None -> status_of (fst (dispatch r clock w)) = 200%Z).
Proof.
  intros Hr.
  assert (forall c, snd (serve (list_documents c) w) = w /\
            (w = None -> status_of (fst (serve (list_documents c) w)) = 200%Z))
    as Hlist.
  { intros c. destruct w as [d|]; [|done]. split; [|done].
    destruct (serve (list_documents c) (Some d)) as [r0 w0] eqn:E.
    by apply scalar_store_list in E as ->. }
  destruct r as [req| | | |]; [destruct req; try discriminate Hr|..];
    try apply Hlist; try done.
  - (* metrics *)
    destruct w as [d|]; [|done]. split; [|done].
    simpl. unfold serve. destruct (down d) as [msg|] eqn:Hd.
    + by rewrite (get_metrics_down d msg Hd).
    + by rewrite (get_metrics_run d Hd).
  - (* analytics *)
    destruct w as [d|]; [|done]. split; [|done].
    simpl. unfold serve. destruct (down d) as [msg|] eqn:Hd.
    + by rewrite (analytics_down d msg Hd).
    + by rewrite (analytics_run d Hd).
Qed.

(** X6.  GET /api/analytics counts at the request: with no handle the four
    funnel counts are 0; with a reachable store [applications],
    [interviews] and [offers] are the numbers of candidate, interview and
    offer documents and [hires] the number of candidates whose stage is
    hired (stages being scalars); the other figures are the same constants
    whatever the store holds; nothing is written. *)
Theorem analytics_funnel_counts (clock : nat -> Z) (w : option database) :
  (w = None ->
     dispatch GET_api_analytics clock w = (OK (analytics_body 0 0 0 0), None)) /\
  (forall d, w = Some d -> down d = None ->
     Forall (scalar_field "stage") (coll d "candidate") ->
     dispatch GET_api_analytics clock w =
     (OK (analytics_body
            (length (coll d "candidate")) (length (coll d "interview"))
            (length (coll d "offer"))
            (length (List.filter (stage_is "hired") (coll d "candidate")))),
      Some d)).
Proof.
  split; [by intros ->|].
  intros d -> Hd Hst. simpl. unfold serve. rewrite (analytics_run d Hd).
  by rewrite (filter_ext_Forall _ _ _ _ (cond_eq_scalar "stage" "hired") Hst).
Qed.

Lemma filter_disjoint_length {A} (f g : A -> bool) l :
  (forall x, f x && g x = false) ->
  (length (List.filter f l) + length (List.filter g l) <= length l)%nat.
Proof.
  intros Hfg. induction l as [|x l IH]; simpl; [lia|].
  specialize (Hfg x). destruct (f x), (g x); simpl in *; try done; lia.
Qed.

Lemma filter_length_bound {A} (f : A -> bool) l :
  (length (List.filter f l) <= length l)%nat.
Proof. induction l as [|x l IH]; simpl; [lia|]. destruct (f x); simpl; lia. Qed.

Lemma active_not_hired x :
  negb (field_in "stage" ["rejected"; "hired"] x) && stage_is "hired" x = false.
Proof.
  unfold stage_is, field_in.
  destruct (dict_get "stage" (fields x)) as [[]|]; try done.
  cbn [existsb].
  by destruct (String.eqb "rejected" s), (String.eqb "hired" s).
Qed.

(** X7.  On one reachable store the two dashboards agree: the active
    candidates of /api/metrics and the hires of /api/analytics together are
    at most the applications, and the offers sent are at most the
    offers. *)
Theorem metrics_agree_with_funnel (clock clock' : nat -> Z) (d : database) :
  down d = None -> scalar_store d ->
  exists jobs active sent applications interviews offers hires,
    dispatch (Api GET_api_metrics) clock (Some d) =
      (OK (metrics_body jobs active sent), Some d) /\
    dispatch GET_api_analytics clock' (Some d) =
      (OK (analytics_body applications interviews offers hires), Some d) /\
    (active + hires <= applications)%nat /\
    (sent <= offers)%nat.
Proof.
  intros Hd [Hst Hof].
  do 7 eexists. simpl. unfold serve.
  rewrite (get_metrics_run d Hd), (analytics_run d Hd). simpl.
  split; [reflexivity|]. split; [reflexivity|].
  rewrite (filter_ext_Forall _ _ _ _ (cond_nin_scalar "stage" _) Hst).
  rewrite (filter_ext_Forall _ _ _ _ (cond_eq_scalar "stage" "hired") Hst).
  split; [|apply filter_length_bound].
  apply filter_disjoint_length. apply active_not_hired.
Qed.

(** X12.  When the handle exists but the store cannot be reached, the
    routes that call the store outside a [try] (seeding, metrics,
    analytics) answer 500 and write nothing. *)
Theorem unreachable_store_is_server_error
    (clock : nat -> Z) (d : database) (msg : string) :
  down d = Some msg ->
  dispatch (Api POST_api_seed) clock (Some d) =
    (Failure 500 "Internal Server Error", Some d) /\
  dispatch (Api GET_api_metrics) clock (Some d) =
    (Failure 500 "Internal Server Error", Some d) /\
  dispatch GET_api_analytics clock (Some d) =
    (Failure 500 "Internal Server Error", Some d).
Proof.
  intros Hd. simpl. unfold serve.
  by rewrite (seed_demo_data_down clock d msg Hd), (get_metrics_down d msg Hd),
    (analytics_down d msg Hd).
Qed.

(** *** Transitions, composed *)

Lemma dict_set_set_eq k v1 v2 (d : dict) :
  dict_set k v2 (dict_set k v1 d) = dict_set k v2 d.
Proof.
  induction d as [|[k' v'] d IH]; simpl.
  - by rewrite String.eqb_refl.
  - destruct (String.eqb k k') eqn:E; simpl; rewrite ?String.eqb_refl, ?E; [done|].
    by rewrite IH.
Qed.

Lemma dict_set_key_in k v (d : dict) : In k (map fst (dict_set k v d)).
Proof.
  induction d as [|[k' v'] d IH]; simpl; [by left|].
  destruct (String.eqb k k'); simpl; auto.
Qed.

Lemma dict_set_comm k k' v w (d : dict) :
  k <> k' -> In k (map fst d) ->
  dict_set k v (dict_set k' w d) = dict_set k' w (dict_set k v d).
Proof.
  intros Hne. induction d as [|[k0 v0] d IH]; simpl; [done|].
  intros Hin.
  assert (String.eqb k k' = false) as Hkk' by (by apply String.eqb_neq).
  assert (String.eqb k' k = false) as Hk'k by (apply String.eqb_neq; congruence).
  destruct (String.eqb k k0) eqn:E, (String.eqb k' k0) eqn:E'; simpl;
    rewrite ?E, ?E', ?Hkk', ?Hk'k; try done.
  - apply String.eqb_eq in E, E'. congruence.
  - f_equal. apply IH. destruct Hin as [->|Hin]; [|done].
    by rewrite String.eqb_refl in E.
Qed.

(** Patching twice is patching once with the later values. *)
Lemma apply_set_twice k v1 v2 t1 t2 x :
  k <> "updated_at" ->
  apply_set [(k, v2); ("updated_at", VDate t2)]
    (apply_set [(k, v1); ("updated_at", VDate t1)] x) =
  apply_set [(k, v2); ("updated_at", VDate t2)] x.
Proof.
  intros Hk. unfold apply_set, dict_update; simpl. f_equal.
  rewrite (dict_set_comm k "updated_at") by (done || apply dict_set_key_in).
  by rewrite dict_set_set_eq, dict_set_set_eq.
Qed.

Lemma update_first_twice pr (f g : document -> document) l :
  (forall x, pr (f x) = pr x) ->
  update_first pr g (update_first pr f l) = update_first pr (fun x => g (f x)) l.
Proof.
  intros Hpr. induction l as [|x l IH]; simpl; [done|].
  destruct (pr x) eqn:E; simpl.
  - by rewrite Hpr, E.
  - by rewrite E, IH.
Qed.

Lemma update_first_ext pr (f g : document -> document) l :
  (forall x, f x = g x) -> update_first pr f l = update_first pr g l.
Proof.
  intros Hfg. induction l as [|x l IH]; simpl; [done|].
  destruct (pr x); by rewrite ?Hfg, ?IH.
Qed.

Lemma existsb_update_first pr (f : document -> document) l :
  (forall x, pr (f x) = pr x) ->
  existsb pr (update_first pr f l) = existsb pr l.
Proof.
  intros Hpr. induction l as [|x l IH]; simpl; [done|].
  destruct (pr x) eqn:E; simpl; [by rewrite Hpr, E|by rewrite E, IH].
Qed.

Lemma set_coll_set_coll c l1 l2 d :
  set_coll c l2 (set_coll c l1 d) = set_coll c l2 d.
Proof. unfold set_coll; simpl. by rewrite insert_insert_eq. Qed.

(** The store after a transition that reached the store. *)
Lemma patch_twice c k o v1 v2 t1 t2 d :
  k <> "updated_at" ->
  let patched v t d :=
    if existsb (matches (QId o)) (coll d c)
    then set_coll c
           (update_first (matches (QId o))
              (apply_set [(k, v); ("updated_at", VDate t)]) (coll d c)) d
    else d in
  patched v2 t2 (patched v1 t1 d) = patched v2 t2 d.
Proof.
  intros Hk patched. unfold patched.
  destruct (existsb (matches (QId o)) (coll d c)) eqn:Hex; [|by rewrite Hex].
  rewrite coll_set_coll_eq, existsb_update_first, Hex by done.
  rewrite set_coll_set_coll, update_first_twice by done.
  f_equal. apply update_first_ext. intros x. by apply apply_set_twice.
Qed.

Lemma serve_patch_ok c k id s clock d o :
  ObjectId lib id = Some o -> down d = None ->
  serve_body [Field k TStr None] (VDict [(k, VStr s)])
    (fun payload => patch_field c k id payload clock) (Some d) =
  (OK ok_status,
   Some (if existsb (matches (QId o)) (coll d c)
         then set_coll c
                (update_first (matches (QId o))
                   (apply_set [(k, VStr s); ("updated_at", VDate (clock 0%nat))])
                   (coll d c)) d
         else d)).
Proof.
  intros Hid Hd. unfold serve_body. rewrite StageUpdate_validate.
  simpl dict_get. rewrite String.eqb_refl. unfold serve.
  rewrite (patch_field_ok _ _ _ _ _ _ _ Hid Hd).
  unfold attr; simpl dict_get. by rewrite String.eqb_refl.
Qed.

(** X8.  Two transitions on the same id, one after the other, leave the
    store exactly as the second alone would have: the last write wins, and
    repeating a transition changes nothing but [updated_at]. *)
Theorem transition_last_write_wins
    (id : string) (o : oid) (s1 s2 : string) (clock1 clock2 : nat -> Z)
    (d : database) :
  ObjectId lib id = Some o -> down d = None ->
  (exists d1 d2,
     app (POST_api_candidates_stage id (VDict [("stage", VStr s1)])) clock1 (Some d)
       = (OK ok_status, Some d1) /\
     app (POST_api_candidates_stage id (VDict [("stage", VStr s2)])) clock2 (Some d1)
       = (OK ok_status, Some d2) /\
     app (POST_api_candidates_stage id (VDict [("stage", VStr s2)])) clock2 (Some d)
       = (OK ok_status, Some d2)) /\
  (exists d1 d2,
     app (POST_api_offers_status id (VDict [("status", VStr s1)])) clock1 (Some d)
       = (OK ok_status, Some d1) /\
     app (POST_api_offers_status id (VDict [("status", VStr s2)])) clock2 (Some d1)
       = (OK ok_status, Some d2) /\
     app (POST_api_offers_status id (VDict [("status", VStr s2)])) clock2 (Some d)
       = (OK ok_status, Some d2)).
Proof.
  intros Hid Hd.
  assert (forall c k, k <> "updated_at" ->
            exists d1 d2,
              serve_body [Field k TStr None] (VDict [(k, VStr s1)])
                (fun payload => patch_field c k id payload clock1) (Some d)
                = (OK ok_status, Some d1) /\
              serve_body [Field k TStr None] (VDict [(k, VStr s2)])
                (fun payload => patch_field c k id payload clock2) (Some d1)
                = (OK ok_status, Some d2) /\
              serve_body [Field k TStr None] (VDict [(k, VStr s2)])
                (fun payload => patch_field c k id payload clock2) (Some d)
                = (OK ok_status, Some d2)) as H.
  { intros c k Hk. do 2 eexists.
    split; [by apply serve_patch_ok|].
    split; [apply serve_patch_ok; [done|]; by destruct (existsb _ _)|].
    rewrite (serve_patch_ok c k id s2 clock2 d o Hid Hd).
    by rewrite (patch_twice c k o (VStr s1) (VStr s2) (clock1 0%nat) (clock2 0%nat) d Hk). }
  split.
  - apply (H "candidate" "stage"). done.
  - apply (H "offer" "status"). done.
Qed.

Lemma filter_app_length {A} (f : A -> bool) l1 x l2 :
  length (List.filter f (l1 ++ x :: l2)) =
  (length (List.filter f l1) + (if f x then 1 else 0) + length (List.filter f l2))%nat.
Proof.
  rewrite List.filter_app, length_app. simpl.
  destruct (f x); simpl; lia.
Qed.

(** X9.  A stage transition moves the count of active candidates by what
    it does to the one candidate: after moving the first candidate with
    the given id to stage [s], [active_candidates] of /api/metrics has lost
    one if that candidate was active and gained one if [s] is neither
    rejected nor hired; [total_jobs] and [offers_sent] are as before. *)
Theorem transition_moves_active_count
    (id : string) (o : oid) (s : string) (clock clock' : nat -> Z)
    (d : database) (pre post : list document) (x : document) :
  ObjectId lib id = Some o -> down d = None -> scalar_store d ->
  coll d "candidate" = pre ++ x :: post -> _id x = o ->
  (forall y, In y pre -> _id y <> o) ->
  exists d' jobs sent active active',
    app (POST_api_candidates_stage id (VDict [("stage", VStr s)])) clock (Some d)
      = (OK ok_status, Some d') /\
    app GET_api_metrics clock' (Some d) = (OK (metrics_body jobs active sent), Some d) /\
    app GET_api_metrics clock' (Some d') = (OK (metrics_body jobs active' sent), Some d') /\
    (active' + (if field_in "stage" ["rejected"; "hired"] x then 0 else 1) =
     active + (if existsb (fun s0 => String.eqb s0 s) ["rejected"; "hired"]
               then 0 else 1))%nat.
Proof.
  intros Hid Hd Hs Hl Hx Hpre.
  assert (matches (QId o) x = true) as Hmx by (simpl; by apply N.eqb_eq).
  assert (forall y, In y pre -> matches (QId o) y = false) as Hmpre.
  { intros y Hy. simpl. apply N.eqb_neq. by apply Hpre. }
  assert (existsb (matches (QId o)) (coll d "candidate") = true) as Hex.
  { apply existsb_exists. exists x. split; [|done].
    rewrite Hl. apply in_app_iff. right. by left. }
  set (x' := apply_set [("stage", VStr s); ("updated_at", VDate (clock 0%nat))] x).
  set (d' := set_coll "candidate" (pre ++ x' :: post) d).
  assert (serve_body [Field "stage" TStr None] (VDict [("stage", VStr s)])
            (fun payload => patch_field "candidate" "stage" id payload clock) (Some d)
          = (OK ok_status, Some d')) as Hrun.
  { rewrite (serve_patch_ok "candidate" "stage" id s clock d o Hid Hd).
    rewrite Hex. by rewrite Hl, update_first_at. }
  assert (scalar_store d') as Hs'.
  { pose proof (scalar_store_patch "candidate" "stage" o s (clock 0%nat) d Hs) as H.
    rewrite Hl, update_first_at in H by done. by apply H. }
  assert (down d' = None) as Hd' by done.
  exists d'. do 4 eexists.
  split; [exact Hrun|].
  simpl app. unfold serve.
  rewrite (get_metrics_run d Hd), (get_metrics_run d' Hd'). cbn [respond].
  assert (coll d' "job" = coll d "job") as -> by (by apply coll_set_coll_ne).
  assert (coll d' "offer" = coll d "offer") as -> by (by apply coll_set_coll_ne).
  split; [reflexivity|]. split; [reflexivity|].
  destruct Hs as [Hst _]. destruct Hs' as [Hst' _].
  rewrite (filter_ext_Forall _ _ _ _ (cond_nin_scalar "stage" _) Hst).
  rewrite (filter_ext_Forall _ _ _ _ (cond_nin_scalar "stage" _) Hst').
  unfold d'. rewrite coll_set_coll_eq, Hl, !filter_app_length.
  assert (field_in "stage" ["rejected"; "hired"] x' =
          existsb (fun s0 => String.eqb s0 s) ["rejected"; "hired"]) as ->.
  { unfold field_in, x', apply_set; cbn [fields].
    pose proof (dict_get_patch "stage" (VStr s) (clock 0%nat) (fields x)) as (H1 & _).
    by rewrite H1. }
  destruct (field_in "stage" ["rejected"; "hired"] x),
    (existsb (fun s0 => String.eqb s0 s) ["rejected"; "hired"]); simpl; lia.
Qed.

(** *** Creating, and what follows *)

Lemma app_create_absent e path_id body p clock :
  model_validate (request_model e) body = inr p ->
  app (create_request e path_id body) clock None =
  (Failure 500 "Internal Server Error", None).
Proof.
  intros Hm. destruct e; cbn [request_model] in Hm; simpl; unfold serve_body;
    by rewrite Hm.
Qed.

Lemma app_create_down e path_id body p clock d msg :
  model_validate (request_model e) body = inr p -> down d = Some msg ->
  app (create_request e path_id body) clock (Some d) =
  (Failure 500 "Internal Server Error", Some d).
Proof.
  intros Hm Hd.
  destruct e; cbn [request_model] in Hm; simpl; unfold serve_body; rewrite Hm;
    unfold serve, create_job, create_candidate, create_interview,
      create_feedback, create_offer, create_onboarding, create_message;
    by erewrite py_bind_raise by (by apply create_document_down).
Qed.

(** X15.  A create route writes at most one document: either the store is
    as it was and the answer is not a 200, or the answer is the id of one
    new document, which is the last of the entity's collection, with every
    document that was there before in its place and every other collection
    as it was. *)
Theorem create_appends_one_document
    (e : entity) (path_id : string) (body : value) (clock : nat -> Z)
    (d : database) (r : response) (w' : option database) :
  app (create_request e path_id body) clock (Some d) = (r, w') ->
  exists d', w' = Some d' /\
    ((d' = d /\ status_of r <> 200%Z) \/
     (exists x,
        r = OK (id_body (oid_str (_id x))) /\
        coll d' (collection_of e) = coll d (collection_of e) ++ [x] /\
        forall c, c <> collection_of e -> coll d' c = coll d c)).
Proof.
  destruct (model_validate (request_model e) body) as [errs|p] eqn:Hm.
  { rewrite (app_create_invalid _ _ _ _ _ _ Hm). intros [= <- <-].
    exists d. split; [done|]. by left. }
  destruct (down d) as [msg|] eqn:Hd.
  { rewrite (app_create_down _ _ _ _ _ _ _ Hm Hd). intros [= <- <-].
    exists d. split; [done|]. by left. }
  rewrite (app_create_valid _ _ _ _ _ _ Hd Hm). intros [= <- <-].
  eexists; split; [done|]. right.
  exists {| _id := next_oid d; fields := created_payload e path_id p |}.
  split; [done|]. split; [apply coll_add_document_eq|].
  intros c Hc. by apply coll_add_document_ne.
Qed.

(** X13.  The id that POST /api/candidates answers with addresses the new
    candidate: given that [ObjectId] reads back the identifier it printed,
    a stage transition with that id patches the new candidate and nothing
    else. *)
Theorem created_candidate_can_be_moved
    (body p : dict) (s : string) (clock clock' : nat -> Z) (d : database) :
  healthy d ->
  model_validate CandidateIn (VDict body) = inr p ->
  ObjectId lib (oid_str (next_oid d)) = Some (next_oid d) ->
  exists id d1 d2,
    app (POST_api_candidates (VDict body)) clock (Some d) =
      (OK (id_body id), Some d1) /\
    app (POST_api_candidates_stage id (VDict [("stage", VStr s)])) clock' (Some d1) =
      (OK ok_status, Some d2) /\
    coll d2 "candidate" =
      coll d "candidate" ++
      [{| _id := next_oid d;
          fields := dict_update [("stage", VStr s);
                                 ("updated_at", VDate (clock' 0%nat))] p |}] /\
    forall c, c <> "candidate" -> coll d2 c = coll d c.
Proof.
  intros (Hd & _ & Hids) Hm Hid.
  set (d1 := add_document "candidate" p d).
  assert (down d1 = None) as Hd1 by done.
  assert (coll d1 "candidate" =
          coll d "candidate" ++ [{| _id := next_oid d; fields := p |}]) as Hl
    by apply coll_add_document_eq.
  assert (forall y, In y (coll d "candidate") ->
            matches (QId (next_oid d)) y = false) as Hpre.
  { intros y Hy. simpl. apply N.eqb_neq. specialize (Hids _ _ Hy). lia. }
  assert (existsb (matches (QId (next_oid d))) (coll d1 "candidate") = true) as Hex.
  { apply existsb_exists. eexists. split.
    - rewrite Hl. apply in_app_iff. right. by left.
    - simpl. apply N.eqb_refl. }
  exists (oid_str (next_oid d)), d1. eexists.
  split; [apply (app_create_valid candidate EmptyString _ _ _ _ Hd Hm)|].
  split.
  { simpl app. rewrite update_candidate_stage_shape. unfold StageUpdate.
    rewrite (serve_patch_ok "candidate" "stage" _ s clock' d1 _ Hid Hd1).
    by rewrite Hex. }
  split.
  - rewrite coll_set_coll_eq, Hl.
    rewrite update_first_at; [done|simpl; apply N.eqb_refl|done].
  - intros c Hc. rewrite coll_set_coll_ne by done.
    by apply coll_add_document_ne.
Qed.

(** *** Status codes *)

Lemma status_of_create e path_id body clock w :
  In (status_of (fst (app (create_request e path_id body) clock w)))
     [200; 422; 500]%Z.
Proof.
  destruct (model_validate (request_model e) body) as [errs|p] eqn:Hm.
  { rewrite (app_create_invalid _ _ _ _ _ _ Hm). simpl. auto. }
  destruct w as [d|].
  2:{ rewrite (app_create_absent _ _ _ _ _ Hm). simpl. auto. }
  destruct (down d) as [msg|] eqn:Hd.
  - rewrite (app_create_down _ _ _ _ _ _ _ Hm Hd). simpl. auto.
  - rewrite (app_create_valid _ _ _ _ _ _ Hd Hm). simpl. auto.
Qed.

Lemma status_of_patch (m : model) c k id body clock w :
  In (status_of (fst (serve_body m body
                        (fun payload => patch_field c k id payload clock) w)))
     [200; 400; 422; 500]%Z.
Proof.
  unfold serve_body.
  destruct (model_validate m body) as [errs|p]; [simpl; auto|].
  unfold serve. destruct w as [d|]; [|rewrite patch_field_absent; simpl; auto].
  destruct (ObjectId lib id) as [o|] eqn:Hid.
  2:{ destruct (patch_field_bad_id c k id p clock d Hid) as (msg & ->).
      simpl. auto. }
  destruct (down d) as [msg|] eqn:Hd.
  - rewrite (patch_field_down _ _ _ _ _ _ _ _ Hid Hd). simpl. auto.
  - rewrite (patch_field_ok _ _ _ _ _ _ _ Hid Hd). simpl. auto.
Qed.

Lemma status_of_list c w :
  In (status_of (fst (serve (list_documents c) w))) [200; 500]%Z.
Proof.
  destruct w as [d|]; [|simpl; auto].
  unfold serve, list_documents.
  rewrite (py_bind_run _ _ _ (Some d) (Some d)) by done.
  destruct (down d) as [msg|] eqn:Hd.
  - erewrite py_bind_raise by (by apply get_documents_down). simpl. auto.
  - erewrite py_bind_run by (by apply get_documents_run). simpl. auto.
Qed.

(** X11.  Every route answers with one of 200, 400, 422 and 500, whatever
    the request and the state of the store; 400 comes only from the two
    transition routes and 422 only from a route with a body.  In
    particular no request is answered with 404. *)
Theorem status_codes (r : route) (clock : nat -> Z) (w : option database) :
  In (status_of (fst (dispatch r clock w))) [200; 400; 422; 500]%Z /\
  (status_of (fst (dispatch r clock w)) = 400%Z -> is_transition r = true) /\
  (status_of (fst (dispatch r clock w)) = 422%Z -> has_body r = true).
Proof.
  assert (forall z : Z, In z [200; 500]%Z ->
            In z [200; 400; 422; 500]%Z /\ (z = 400%Z -> False) /\
            (z = 422%Z -> False)) as Hread.
  { intros z [<-|[<-|[]]]; simpl; repeat split; auto; discriminate. }
  assert (forall z : Z, In z [200; 422; 500]%Z ->
            In z [200; 400; 422; 500]%Z /\ (z = 400%Z -> False)) as Hcreate.
  { intros z [<-|[<-|[<-|[]]]]; simpl; repeat split; auto; discriminate. }
  assert (forall c, In (status_of (fst (serve (list_documents c) w)))
                      [200; 400; 422; 500]%Z /\
                    (status_of (fst (serve (list_documents c) w)) = 400%Z ->
                     false = true) /\
                    (status_of (fst (serve (list_documents c) w)) = 422%Z ->
                     false = true)) as Hlist.
  { intros c. destruct (Hread _ (status_of_list c w)) as (H1 & H2 & H3).
    repeat split; [done|intros H; by destruct (H2 H)|intros H; by destruct (H3 H)]. }
  assert (forall e path_id body,
            In (status_of (fst (app (create_request e path_id body) clock w)))
               [200; 400; 422; 500]%Z /\
            (status_of (fst (app (create_request e path_id body) clock w)) = 400%Z ->
             false = true) /\
            (status_of (fst (app (create_request e path_id body) clock w)) = 422%Z ->
             true = true)) as Hpost.
  { intros e path_id body.
    destruct (Hcreate _ (status_of_create e path_id body clock w)) as (H1 & H2).
    repeat split; [done|]. intros H; by destruct (H2 H). }
  destruct r as [req| | | |]; [destruct req|..]; cbn [dispatch is_transition has_body].
  - (* seed *)
    simpl app. unfold serve. destruct w as [d|]; [|simpl; intuition discriminate].
    destruct (down d) as [msg|] eqn:Hd.
    + rewrite (seed_demo_data_down clock d msg Hd). simpl. intuition discriminate.
    + rewrite (seed_demo_data_run clock d Hd). simpl. intuition discriminate.
  - (* metrics *)
    simpl app. unfold serve. destruct w as [d|]; [|simpl; intuition discriminate].
    destruct (down d) as [msg|] eqn:Hd.
    + rewrite (get_metrics_down d msg Hd). simpl. intuition discriminate.
    + rewrite (get_metrics_run d Hd). simpl. intuition discriminate.
  - apply Hlist.
  - apply (Hpost job EmptyString).
  - apply Hlist.
  - apply (Hpost candidate EmptyString).
  - simpl app. rewrite update_candidate_stage_shape.
    pose proof (status_of_patch StageUpdate "candidate" "stage" candidate_id body clock w).
    intuition.
  - apply Hlist.
  - apply (Hpost interview EmptyString).
  - apply (Hpost feedback interview_id).
  - apply Hlist.
  - apply (Hpost offer EmptyString).
  - simpl app. rewrite update_offer_status_shape.
    pose proof (status_of_patch OfferStatus "offer" "status" offer_id body clock w).
    intuition.
  - apply Hlist.
  - apply (Hpost onboardingtask EmptyString).
  - apply Hlist.
  - apply (Hpost message EmptyString).
  - simpl. intuition discriminate.
  - simpl. intuition discriminate.
  - (* analytics *)
    unfold serve. destruct w as [d|]; [|simpl; intuition discriminate].
    destruct (down d) as [msg|] eqn:Hd.
    + rewrite (analytics_down d msg Hd). simpl. intuition discriminate.
    + rewrite (analytics_run d Hd). simpl. intuition discriminate.
  - simpl. intuition discriminate.
Qed.

(** *** The schemas of [schemas.py] as validators *)

Lemma enumerated_field_declared (m : model) f vs :
  In (f, vs) (enumerated_fields m) ->
  exists fl, In fl m /\ name fl = f /\ annotation fl = TLiteral vs.
Proof.
  induction m as [|fl m IH]; simpl; [done|].
  destruct (annotation fl) eqn:Ha;
    try (intros H; destruct (IH H) as (g & ? & ? & ?); exists g; by auto).
  intros [[= <- <-]|H].
  - exists fl. auto.
  - destruct (IH H) as (g & ? & ? & ?). exists g. auto.
Qed.

Lemma schema_NoDup e : NoDup (map name (schema_of e)).
Proof. destruct e; apply (bool_decide_unpack _); vm_compute; exact I. Qed.

Lemma model_validate_errors (m : model) body err :
  In err (fst (validate_fields m body)) ->
  model_validate m (VDict body) = inl (fst (validate_fields m body)).
Proof.
  unfold model_validate.
  destruct (validate_fields m body) as [[|e0 errs] out]; simpl; [done|done].
Qed.

Lemma literal_accepts vs s :
  validate_type (TLiteral vs) (VStr s) = None <-> ~ In s vs.
Proof.
  simpl. destruct (existsb (String.eqb s) vs) eqn:E.
  - split; [done|]. intros Hn. exfalso. apply Hn.
    apply existsb_exists in E as (t & Ht & Hst).
    apply String.eqb_eq in Hst. by subst.
  - split; [|done]. intros _ Hin.
    assert (existsb (String.eqb s) vs = true) as E'.
    { apply existsb_exists. exists s. split; [done|apply String.eqb_refl]. }
    congruence.
Qed.

(** X10.  The schemas of [schemas.py] enforce their declared sets:
    validating a body against the schema of an entity reports an
    enumerated field that holds a string as invalid exactly when the
    string is outside the set declared for it. *)
Theorem schema_enforces_declared_values
    (e : entity) (f : string) (vs : list string) (body : dict) (s : string) :
  In (f, vs) (enumerated_fields (schema_of e)) ->
  dict_get f body = Some (VStr s) ->
  ((exists errs,
      model_validate (schema_of e) (VDict body) = inl errs /\
      In (Invalid f) errs)
   <-> ~ In s vs).
Proof.
  intros Hin Hget.
  destruct (enumerated_field_declared _ _ _ Hin) as (fl & Hfl & <- & Hann).
  pose proof (schema_NoDup e) as Hnd.
  split.
  - intros (errs & Hm & Hbad).
    apply model_validate_inl in Hm as [-> _].
    apply validate_fields_invalid in Hbad as (g & v & Hg & Hgn & Hgv & Hnone).
    assert (g = fl) as -> by (by apply (NoDup_names_unique (schema_of e))).
    rewrite Hget in Hgv. injection Hgv as <-. rewrite Hann in Hnone.
    by apply literal_accepts.
  - intros Hout.
    pose proof (validate_fields_present (schema_of e) body fl (VStr s) Hnd Hfl Hget)
      as Hp.
    rewrite Hann in Hp. apply literal_accepts in Hout. rewrite Hout in Hp.
    eexists. split; [by eapply model_validate_errors|done].
Qed.

(** *** The seeded interview *)

(** X14.  Seeding a store whose interview collection is empty leaves one
    interview when some candidate is in stage interview, and none
    otherwise; the interview names the first such candidate of the store
    by its id and its name. *)
Theorem seeded_interview_refers_to_candidate (clock : nat -> Z) (d : database) :
  down d = None -> coll d "interview" = [] ->
  exists d1,
    app POST_api_seed clock (Some d) = (OK ok_status, Some d1) /\
    match List.find (matches (QField "stage" (CEq "interview")))
            (coll d1 "candidate") with
    | Some c =>
        In c (coll d1 "candidate") /\
        exists i,
          coll d1 "interview" = [i] /\
          dict_get "candidate_id" (fields i) = Some (VStr (oid_str (_id c))) /\
          dict_get "candidate_name" (fields i) = Some (attr (fields c) "name") /\
          dict_get "status" (fields i) = Some (VStr "scheduled")
    | None => coll d1 "interview" = []
    end.
Proof.
  intros Hd Hi. exists (seeded clock d).
  simpl app. unfold serve. rewrite (seed_demo_data_run clock d Hd).
  split; [done|].
  unfold seeded.
  set (d2 := seed_step "candidate" sample_candidates
               (seed_step "job" (sample_jobs clock) d)).
  assert (coll d2 "interview" = []) as Hi2.
  { unfold d2. by rewrite !seed_step_coll_ne. }
  rewrite Hi2. simpl Nat.eqb. cbv iota.
  destruct (List.find _ (coll d2 "candidate")) as [c|] eqn:Ef.
  - rewrite coll_add_document_ne by done. rewrite Ef.
    split; [by apply find_some in Ef as [? _]|].
    eexists. rewrite coll_add_document_eq, Hi2. by split.
  - by rewrite Ef.
Qed.

(** *** Posting again what was stored *)

Lemma dict_get_in_NoDup (p : dict) k v :
  NoDup (map fst p) -> In (k, v) p -> dict_get k p = Some v.
Proof.
  induction p as [|[k0 v0] p IH]; simpl; [done|].
  intros Hnd. apply NoDup_cons in Hnd as [Hnot Hnd].
  intros [[= -> ->]|Hin]; [by rewrite String.eqb_refl|].
  destruct (String.eqb k k0) eqn:E; [|by apply IH].
  apply String.eqb_eq in E. subst k0. exfalso. apply Hnot.
  apply list_elem_of_In. by apply (in_map fst _ (k, v)).
Qed.

Lemma validate_fields_fixed (fs : model) (p' : dict) body :
  Forall2 (fun f kv =>
             fst kv = name f /\
             validate_type (annotation f) (snd kv) = Some (snd kv)) fs p' ->
  (forall kv, In kv p' -> dict_get (fst kv) body = Some (snd kv)) ->
  validate_fields fs body = ([], p').
Proof.
  intros H. induction H as [|f [k v] fs p' [Hk Hv] _ IH]; simpl; [done|].
  intros Hbody. simpl in Hk, Hv. subst k.
  rewrite IH by auto.
  pose proof (Hbody (name f, v) (or_introl eq_refl)) as Hb. simpl in Hb.
  by rewrite Hb, Hv.
Qed.

Lemma validated_entries_fixed (fs : model) body p :
  Forall (fun fl => verbatim (annotation fl) = true) fs ->
  Forall (fun fl => forall v, default_value fl = Some v ->
                      validate_type (annotation fl) v = Some v) fs ->
  validate_fields fs body = ([], p) ->
  Forall2 (fun f kv =>
             fst kv = name f /\
             validate_type (annotation f) (snd kv) = Some (snd kv)) fs p.
Proof.
  intros Hverb Hdef H. apply validate_fields_ok in H.
  induction H as [|f kv fs p [Hk Hv] _ IH]; [constructor|].
  apply Forall_cons in Hverb as [Hvf Hverb].
  apply Forall_cons in Hdef as [Hdf Hdef].
  constructor; [|by apply IH].
  split; [done|].
  destruct (dict_get (name f) body) as [v|].
  - pose proof (validate_type_verbatim _ Hvf _ _ Hv) as E. by rewrite E in *.
  - by apply Hdf.
Qed.

(** X16.  For the entities whose request model keeps every valid input as
    it is (job, candidate, offer, onboarding task, message), validation is
    idempotent on what it produced: the stored fields, posted again with or
    without the [id] that a list shows, validate to themselves. *)
Theorem reposting_validates_to_itself
    (e : entity) (body p : dict) (idv : value) :
  In e [job; candidate; offer; onboardingtask; message] ->
  model_validate (request_model e) (VDict body) = inr p ->
  model_validate (request_model e) (VDict p) = inr p /\
  model_validate (request_model e) (VDict (dict_set "id" idv p)) = inr p.
Proof.
  intros He Hm.
  pose proof (model_validate_inr _ _ _ Hm) as (kvs & [= <-] & Hv).
  assert (Forall (fun fl => verbatim (annotation fl) = true) (request_model e) /\
          Forall (fun fl => forall v, default_value fl = Some v ->
                              validate_type (annotation fl) v = Some v)
            (request_model e)) as [Hverb Hdef].
  { simpl in He.
    repeat (destruct He as [<-|He];
            [split; repeat constructor; by intros v [= <-]|]).
    destruct He. }
  assert (validate_fields (request_model e) p = ([], p)) as Hfix.
  { apply validate_fields_fixed; [by eapply validated_entries_fixed|].
    intros [k v] Hin. apply dict_get_in_NoDup; [|done].
    rewrite (validate_fields_dump_keys _ _ _ Hv).
    apply request_model_NoDup. }
  split.
  - unfold model_validate. by rewrite Hfix.
  - unfold model_validate.
    rewrite validate_fields_undeclared by apply request_model_no_id.
    by rewrite Hfix.
Qed.

End Api.





(** *** Worked examples *)

(** C1 (as stated, refuted).  A job posted with [status = "archived"], a
    value outside the set that [schemas.Job] declares, is answered with 200
    and the document is stored with that status. *)
Lemma create_job_accepts_undeclared_status :
  let body := VDict (qa_job ++ [("status", VStr "archived")]) in
  In ("status", ["draft"; "open"; "paused"; "closed"])
     (enumerated_fields (schema_of job)) /\
  ~ In "archived" ["draft"; "open"; "paused"; "closed"] /\
  status_of (fst (app demo (create_request job EmptyString body) noon (Some empty_db))) = 200%Z /\
  match snd (app demo (create_request job EmptyString body) noon (Some empty_db)) with
  | Some d' => map (fun x => dict_get "status" (fields x)) (coll d' "job")
  | None => []
  end = [Some (VStr "archived")].
Proof.
  simpl. split; [by left|]. split; [|split; vm_compute; reflexivity].
  intros H. repeat (destruct H as [H|H]; [discriminate H|]). exact H.
Qed.

Lemma create_checks_enumerated_field_as_string_witness :
  In ("status", ["draft"; "open"; "paused"; "closed"])
     (enumerated_fields (schema_of job)) /\
  exists errs,
    app demo (create_request job EmptyString (VDict (qa_job ++ [("status", VInt 3)])))
      noon (Some empty_db) = (Unprocessable errs, Some empty_db) /\
    In (Invalid "status") errs.
Proof.
  assert (In ("status", ["draft"; "open"; "paused"; "closed"])
             (enumerated_fields (schema_of job))) as Hin by (simpl; by left).
  split; [exact Hin|].
  destruct (create_checks_enumerated_field_as_string demo job "status" _ EmptyString
              (qa_job ++ [("status", VInt 3)]) noon (Some empty_db) Hin)
    as [H _].
  apply (H (VInt 3)); [reflexivity | intros s; discriminate].
Defined.

(** C4 (as stated, refuted).  A candidate posted with an email that has no
    [@] is answered with 200 and stored with that email. *)
Lemma create_candidate_accepts_any_email :
  let body := VDict [("name", VStr "Jordan Lee"); ("email", VStr "not-an-email")] in
  has_at "not-an-email" = false /\
  status_of (fst (app demo (POST_api_candidates body) noon (Some empty_db))) = 200%Z /\
  match snd (app demo (POST_api_candidates body) noon (Some empty_db)) with
  | Some d' => map (fun x => dict_get "email" (fields x)) (coll d' "candidate")
  | None => []
  end = [Some (VStr "not-an-email")].
Proof. repeat split; vm_compute; reflexivity. Qed.



(** C3 (as stated, refuted).  The empty string is accepted as a stage: the
    answer is the status-ok body and the candidate's stage is now empty. *)
Lemma update_candidate_stage_accepts_empty_stage :
  let d := seeded noon empty_db in
  let id := "000000000000000000000002" in
  let r := app demo (POST_api_candidates_stage id (VDict [("stage", VStr EmptyString)]))
             noon (Some d) in
  ObjectId demo id = Some 2%N /\
  map (fun x => (_id x, dict_get "stage" (fields x))) (coll d "candidate") =
    [ (2%N, Some (VStr "interview")); (3%N, Some (VStr "applied"));
      (4%N, Some (VStr "offer")) ] /\
  fst r = OK ok_status /\
  match snd r with
  | Some d' => map (fun x => (_id x, dict_get "stage" (fields x))) (coll d' "candidate")
  | None => []
  end = [ (2%N, Some (VStr EmptyString)); (3%N, Some (VStr "applied"));
          (4%N, Some (VStr "offer")) ].
Proof. repeat split; vm_compute; reflexivity. Qed.

Lemma update_candidate_stage_sets_stage_witness :
  let d := seeded noon empty_db in
  let id := "000000000000000000000002" in
  ObjectId demo id = Some 2%N /\
  down d = None /\
  exists d',
    app demo (POST_api_candidates_stage id (VDict [("stage", VStr "offer")]))
      noon (Some d) = (OK ok_status, Some d') /\
    (forall pre x post,
       coll d "candidate" = pre ++ x :: post -> _id x = 2%N ->
       (forall y, In y pre -> _id y <> 2%N) ->
       exists x',
         coll d' "candidate" = pre ++ x' :: post /\ _id x' = 2%N /\
         dict_get "stage" (fields x') = Some (VStr "offer") /\
         dict_get "updated_at" (fields x') = Some (VDate (noon 0%nat))) /\
    ((forall y, In y (coll d "candidate") -> _id y <> 2%N) -> d' = d).
Proof.
  intros d id.
  assert (ObjectId demo id = Some 2%N) as Hid by reflexivity.
  assert (down d = None) as Hd by reflexivity.
  split; [exact Hid|]. split; [exact Hd|].
  destruct (update_candidate_stage_sets_stage demo id 2%N
              [("stage", VStr "offer")] noon d Hid Hd) as (_ & _ & H).
  exact (H "offer" eq_refl).
Defined.

Lemma create_candidate_checks_email_as_string_witness :
  exists errs,
    app demo (POST_api_candidates
                (VDict [("name", VStr "Jordan Lee"); ("email", VInt 7)]))
      noon (Some empty_db) = (Unprocessable errs, Some empty_db) /\
    In (Invalid "email") errs.
Proof.
  destruct (create_candidate_checks_email_as_string demo
              [("name", VStr "Jordan Lee"); ("email", VInt 7)] noon (Some empty_db))
    as (_ & H & _).
  apply (H (VInt 7)); [reflexivity | intros s; discriminate].
Defined.

Lemma get_metrics_counts_witness :
  let d := add_document "candidate" [("name", VStr "Ann"); ("stage", VStr "hired")]
             (add_document "offer" [("role", VStr "QA"); ("status", VStr "sent")]
                (seeded noon empty_db)) in
  down d = None /\
  Forall (scalar_field "stage") (coll d "candidate") /\
  Forall (scalar_field "status") (coll d "offer") /\
  length (coll d "job") = 2%nat /\
  length (coll d "candidate") = 4%nat /\
  length (List.filter (fun x => negb (field_in "stage" ["rejected"; "hired"] x))
            (coll d "candidate")) = 3%nat /\
  length (List.filter (field_in "status" ["sent"; "accepted"; "declined"])
            (coll d "offer")) = 1%nat /\
  app demo GET_api_metrics noon (Some d) =
    (OK (VDict
           [ ("total_jobs", VInt (Z.of_nat (length (coll d "job"))));
             ("active_candidates",
              VInt (Z.of_nat (length (List.filter
                       (fun x => negb (field_in "stage" ["rejected"; "hired"] x))
                       (coll d "candidate")))));
             ("offers_sent",
              VInt (Z.of_nat (length (List.filter
                       (field_in "status" ["sent"; "accepted"; "declined"])
                       (coll d "offer")))));
             ("time_to_fill", VInt 24) ]), Some d).
Proof.
  intros d.
  assert (down d = None) as Hd by reflexivity.
  assert (Forall (scalar_field "stage") (coll d "candidate")) as Hst.
  { vm_compute. repeat constructor. }
  assert (Forall (scalar_field "status") (coll d "offer")) as Hof.
  { vm_compute. repeat constructor. }
  split; [exact Hd|]. split; [exact Hst|]. split; [exact Hof|].
  split; [vm_compute; reflexivity|]. split; [vm_compute; reflexivity|].
  split; [vm_compute; reflexivity|]. split; [vm_compute; reflexivity|].
  destruct (get_metrics_counts demo noon (Some d)) as [_ H].
  exact (H d eq_refl Hd Hst Hof).
Defined.

Lemma seed_is_idempotent_witness :
  down empty_db = None /\
  exists d1 d2,
    app demo POST_api_seed noon (Some empty_db) = (OK ok_status, Some d1) /\
    app demo POST_api_seed noon (Some d1) = (OK ok_status, Some d2) /\
    d2 = d1 /\
    (forall c, length (coll d2 c) = length (coll d1 c)) /\
    length (coll d1 "job") = 2%nat /\
    length (coll d1 "candidate") = 3%nat.
Proof.
  split; [reflexivity|].
  destruct (seed_is_idempotent demo noon noon (Some empty_db)) as [_ H].
  destruct (H empty_db eq_refl eq_refl)
    as (d1 & d2 & H1 & H2 & H3 & H4 & _ & _ & H7 & H8).
  exists d1, d2. repeat split; try assumption.
  - apply H7, coll_empty_db.
  - apply H8, coll_empty_db.
Defined.

(** C8 (as stated, refuted).  With an id that parses and a store that
    cannot be reached, both transition routes answer 400 with the store's
    message, not a server error. *)
Lemma transition_answers_400_on_store_error :
  let d := {| collections := ∅; next_oid := 0%N;
              down := Some "connection refused" |} in
  let id := "000000000000000000000000" in
  ObjectId demo id = Some 0%N /\
  app demo (POST_api_candidates_stage id (VDict [("stage", VStr "offer")]))
    noon (Some d) = (Failure 400 "connection refused", Some d) /\
  app demo (POST_api_offers_status id (VDict [("status", VStr "sent")]))
    noon (Some d) = (Failure 400 "connection refused", Some d).
Proof. repeat split; vm_compute; reflexivity. Qed.

Lemma transition_bad_request_causes_witness :
  status_of (fst (app demo (POST_api_candidates_stage "xyz"
                              (VDict [("stage", VStr "offer")]))
                    noon (Some empty_db))) = 400%Z /\
  status_of (fst (app demo (POST_api_offers_status "xyz"
                              (VDict [("status", VStr "sent")]))
                    noon None)) = 500%Z.
Proof.
  split.
  - destruct (transition_bad_request_causes demo "xyz"
                (VDict [("stage", VStr "offer")]) noon (Some empty_db))
      as ([_ H] & _).
    apply H. exists empty_db, [("stage", VStr "offer")].
    split; [reflexivity|]. split; [reflexivity|]. left. reflexivity.
  - destruct (transition_bad_request_causes demo "xyz"
                (VDict [("status", VStr "sent")]) noon None)
      as (_ & _ & _ & [_ H]).
    apply H. split; [reflexivity|]. by exists [("status", VStr "sent")].
Defined.

Lemma transition_frame_witness :
  let d := seeded noon empty_db in
  let id := "000000000000000000000002" in
  let r := app demo (POST_api_candidates_stage id (VDict [("stage", VStr "offer")]))
             noon (Some d) in
  exists d', snd r = Some d' /\ narrow_patch demo "candidate" "stage" id d d'.
Proof.
  intros d id r.
  destruct (transition_frame demo id (VDict [("stage", VStr "offer")]) noon (Some d))
    as [H _].
  specialize (H (fst r) (snd r) (surjective_pairing r)).
  destruct (snd r) as [d'|]; [|destruct H].
  exists d'. split; [reflexivity|exact H].
Defined.

(** C10 (as stated, refuted).  Ratings submitted as the string 4, the float
    4.0 and the boolean true validate against [Dict[str, int]] in lax mode
    and are stored as the integers 4, 4 and 1, not as submitted. *)
Lemma create_feedback_coerces_ratings :
  let submitted := VDict [ ("technical", VStr "4");
                           ("culture", VFloat 4616189618054758400);
                           ("communication", VBool true) ] in
  let body := VDict [ ("interview_id", VStr "from-body");
                      ("candidate_id", VStr "c1");
                      ("ratings", submitted);
                      ("recommendation", VStr "proceed") ] in
  let r := app demo (POST_api_interviews_feedback "from-path" body) noon
             (Some empty_db) in
  status_of (fst r) = 200%Z /\
  match snd r with
  | Some d' => map (fun x => dict_get "ratings" (fields x)) (coll d' "feedback")
  | None => []
  end = [Some (VDict [ ("technical", VInt 4); ("culture", VInt 4);
                       ("communication", VInt 1) ])] /\
  submitted <> VDict [ ("technical", VInt 4); ("culture", VInt 4);
                       ("communication", VInt 1) ].
Proof.
  split; [vm_compute; reflexivity|]. split; [vm_compute; reflexivity|].
  discriminate.
Qed.

Lemma create_feedback_takes_interview_id_from_path_witness :
  let body := [ ("interview_id", VStr "from-body"); ("candidate_id", VStr "c1");
                ("ratings", VDict [("technical", VStr "4"); ("culture", VInt 5)]);
                ("recommendation", VStr "proceed") ] in
  let p := [ ("interview_id", VStr "from-body"); ("candidate_id", VStr "c1");
             ("ratings", VDict [("technical", VInt 4); ("culture", VInt 5)]);
             ("recommendation", VStr "proceed"); ("comments", VNull) ] in
  down empty_db = None /\
  model_validate demo FeedbackIn (VDict body) = inr p /\
  exists x,
    app demo (POST_api_interviews_feedback "from-path" (VDict body)) noon
      (Some empty_db) =
      (OK (id_body (oid_str (_id x))),
       Some (add_document "feedback" (fields x) empty_db)) /\
    dict_get "interview_id" (fields x) = Some (VStr "from-path") /\
    (forall k, k <> "interview_id" -> dict_get k (fields x) = dict_get k p) /\
    (forall k v, In k ["candidate_id"; "recommendation"; "comments"] ->
       dict_get k body = Some v -> dict_get k (fields x) = Some v) /\
    (exists kvs kvs',
       dict_get "ratings" body = Some (VDict kvs) /\
       dict_get "ratings" (fields x) = Some (VDict kvs') /\
       Forall2 (fun a b => fst b = fst a /\
                  exists z, int_lax demo (snd a) = Some z /\ snd b = VInt z)
               kvs kvs').
Proof.
  intros body p.
  assert (model_validate demo FeedbackIn (VDict body) = inr p) as Hm by reflexivity.
  split; [reflexivity|]. split; [exact Hm|].
  destruct (create_feedback_takes_interview_id_from_path demo "from-path" body p
              noon empty_db eq_refl Hm) as (x & H1 & _ & H3 & H4 & H5 & H6).
  exists x. exact (conj H1 (conj H3 (conj H4 (conj H5 H6)))).
Defined.

(** *** Worked examples for the rest of the API *)

Lemma create_rejected_iff_witness :
  exists errs,
    app demo (create_request job EmptyString
                (VDict [("title", VStr "QA Engineer"); ("owner", VStr "Sam")]))
      noon (Some empty_db) = (Unprocessable errs, Some empty_db).
Proof.
  destruct (create_rejected_iff demo job EmptyString
              [("title", VStr "QA Engineer"); ("owner", VStr "Sam")] noon
              (Some empty_db)) as [[_ H] _].
  apply H. exists (Field "department" TStr None).
  split; [simpl; pick_member|reflexivity].
Defined.

Lemma create_fills_default_witness :
  In (Field "location" TStr (Some (VStr "Remote"))) (request_model job) /\
  dict_get "location" qa_job = None /\
  down empty_db = None /\
  dict_get "location"
    (created_payload job EmptyString
       [ ("title", VStr "QA Engineer"); ("department", VStr "Engineering");
         ("location", VStr "Remote"); ("status", VStr "open");
         ("owner", VStr "Sam"); ("description", VNull) ]) = Some (VStr "Remote").
Proof.
  assert (In (Field "location" TStr (Some (VStr "Remote"))) (request_model job))
    as Hin by (simpl; pick_member).
  split; [exact Hin|]. split; [reflexivity|]. split; [reflexivity|].
  exact (proj1 (create_fills_default demo job _ (VStr "Remote") EmptyString qa_job _
                  noon empty_db Hin eq_refl eq_refl eq_refl eq_refl)).
Defined.

Lemma create_ignores_undeclared_key_witness :
  ~ In "applicants_count" (map name (request_model job)) /\
  app demo (create_request job EmptyString
              (VDict (dict_set "applicants_count" (VInt 3) qa_job)))
    noon (Some empty_db) =
  app demo (create_request job EmptyString (VDict qa_job)) noon (Some empty_db).
Proof.
  assert (~ In "applicants_count" (map name (request_model job))) as Hk.
  { simpl. intros H. repeat (destruct H as [H|H]; [discriminate H|]). exact H. }
  split; [exact Hk|].
  exact (create_ignores_undeclared_key demo job "applicants_count" (VInt 3)
           EmptyString qa_job noon (Some empty_db) Hk).
Defined.


Lemma get_route_never_writes_witness :
  is_get GET_api_analytics = true /\
  snd (dispatch demo GET_api_analytics noon (Some (seeded noon empty_db))) =
    Some (seeded noon empty_db) /\
  status_of (fst (dispatch demo (Api GET_api_candidates) noon None)) = 200%Z.
Proof.
  split; [reflexivity|]. split.
  - exact (proj1 (get_route_never_writes demo GET_api_analytics noon
                    (Some (seeded noon empty_db)) eq_refl)).
  - exact (proj2 (get_route_never_writes demo (Api GET_api_candidates) noon None
                    eq_refl) eq_refl).
Defined.

Lemma analytics_funnel_counts_witness :
  let d := add_document "candidate" [("name", VStr "Ann"); ("stage", VStr "hired")]
             (seeded noon empty_db) in
  down d = None /\
  Forall (scalar_field "stage") (coll d "candidate") /\
  length (List.filter (stage_is "hired") (coll d "candidate")) = 1%nat /\
  dispatch demo GET_api_analytics noon (Some d) =
    (OK (analytics_body
           (length (coll d "candidate")) (length (coll d "interview"))
           (length (coll d "offer"))
           (length (List.filter (stage_is "hired") (coll d "candidate")))),
     Some d).
Proof.
  intros d.
  assert (Forall (scalar_field "stage") (coll d "candidate")) as Hst.
  { vm_compute. repeat constructor. }
  split; [reflexivity|]. split; [exact Hst|]. split; [vm_compute; reflexivity|].
  exact (proj2 (analytics_funnel_counts demo noon (Some d)) d eq_refl eq_refl Hst).
Defined.

Lemma metrics_agree_with_funnel_witness :
  let d := seeded noon empty_db in
  down d = None /\ scalar_store d /\
  exists jobs active sent applications interviews offers hires,
    dispatch demo (Api GET_api_metrics) noon (Some d) =
      (OK (metrics_body jobs active sent), Some d) /\
    dispatch demo GET_api_analytics noon (Some d) =
      (OK (analytics_body applications interviews offers hires), Some d) /\
    (active + hires <= applications)%nat /\
    (sent <= offers)%nat.
Proof.
  intros d.
  assert (scalar_store d) as Hs by (apply scalar_store_seeded, scalar_store_empty_db).
  split; [reflexivity|]. split; [exact Hs|].
  exact (metrics_agree_with_funnel demo noon noon d eq_refl Hs).
Defined.

Lemma transition_last_write_wins_witness :
  let d := seeded noon empty_db in
  let id := "000000000000000000000002" in
  ObjectId demo id = Some 2%N /\ down d = None /\
  exists d1 d2,
    app demo (POST_api_candidates_stage id (VDict [("stage", VStr "offer")]))
      noon (Some d) = (OK ok_status, Some d1) /\
    app demo (POST_api_candidates_stage id (VDict [("stage", VStr "hired")]))
      noon (Some d1) = (OK ok_status, Some d2) /\
    app demo (POST_api_candidates_stage id (VDict [("stage", VStr "hired")]))
      noon (Some d) = (OK ok_status, Some d2).
Proof.
  intros d id. split; [reflexivity|]. split; [reflexivity|].
  exact (proj1 (transition_last_write_wins demo id 2%N "offer" "hired" noon noon d
                  eq_refl eq_refl)).
Defined.

Lemma transition_moves_active_count_witness :
  let d := seeded noon empty_db in
  let id := "000000000000000000000003" in
  exists pre x post,
    ObjectId demo id = Some 3%N /\ down d = None /\ scalar_store d /\
    coll d "candidate" = pre ++ x :: post /\ _id x = 3%N /\
    (forall y, In y pre -> _id y <> 3%N) /\
    field_in "stage" ["rejected"; "hired"] x = false /\
    exists d' jobs sent active active',
      app demo (POST_api_candidates_stage id (VDict [("stage", VStr "rejected")]))
        noon (Some d) = (OK ok_status, Some d') /\
      app demo GET_api_metrics noon (Some d) =
        (OK (metrics_body jobs active sent), Some d) /\
      app demo GET_api_metrics noon (Some d') =
        (OK (metrics_body jobs active' sent), Some d') /\
      (active' + 1 = active + 0)%nat.
Proof.
  intros d id.
  assert (scalar_store d) as Hs by (apply scalar_store_seeded, scalar_store_empty_db).
  assert (exists pre x post,
            coll d "candidate" = pre ++ x :: post /\ _id x = 3%N /\
            (forall y, In y pre -> _id y <> 3%N) /\
            field_in "stage" ["rejected"; "hired"] x = false)
    as (pre & x & post & Hl & Hx & Hpre & Hact).
  { eexists [_], _, [_]. split; [vm_compute; reflexivity|].
    split; [reflexivity|]. split; [|reflexivity].
    intros y [<-|[]]. discriminate. }
  exists pre, x, post.
  split; [reflexivity|]. split; [reflexivity|]. split; [exact Hs|].
  split; [exact Hl|]. split; [exact Hx|]. split; [exact Hpre|].
  split; [exact Hact|].
  destruct (transition_moves_active_count demo id 3%N "rejected" noon noon d
              pre post x eq_refl eq_refl Hs Hl Hx Hpre)
    as (d' & jobs & sent & active & active' & H1 & H2 & H3 & H4).
  exists d', jobs, sent, active, active'.
  rewrite Hact in H4. exact (conj H1 (conj H2 (conj H3 H4))).
Defined.

Lemma schema_enforces_declared_values_witness :
  In ("stage", ["applied"; "screening"; "interview"; "offer"; "hired"; "rejected"])
     (enumerated_fields (schema_of candidate)) /\
  ~ In "archived" ["applied"; "screening"; "interview"; "offer"; "hired"; "rejected"] /\
  exists errs,
    model_validate demo (schema_of candidate)
      (VDict [("name", VStr "Ann"); ("email", VStr "ann@example.com");
              ("stage", VStr "archived")]) = inl errs /\
    In (Invalid "stage") errs.
Proof.
  assert (In ("stage", ["applied"; "screening"; "interview"; "offer"; "hired"; "rejected"])
             (enumerated_fields (schema_of candidate))) as Hin by (simpl; by left).
  assert (~ In "archived"
            ["applied"; "screening"; "interview"; "offer"; "hired"; "rejected"])
    as Hout.
  { intros H. repeat (destruct H as [H|H]; [discriminate H|]). exact H. }
  split; [exact Hin|]. split; [exact Hout|].
  exact (proj2 (schema_enforces_declared_values demo candidate "stage" _
                  [("name", VStr "Ann"); ("email", VStr "ann@example.com");
                   ("stage", VStr "archived")] "archived" Hin eq_refl) Hout).
Defined.

Lemma status_codes_witness :
  status_of (fst (dispatch demo
                    (Api (POST_api_candidates_stage "000000000000000000000009"
                            (VDict [("stage", VStr "offer")])))
                    noon (Some empty_db))) = 200%Z /\
  In (status_of (fst (dispatch demo (Api (POST_api_jobs VNull)) noon None)))
     [200; 400; 422; 500]%Z.
Proof.
  split; [reflexivity|].
  exact (proj1 (status_codes demo (Api (POST_api_jobs VNull)) noon None)).
Defined.

Lemma unreachable_store_is_server_error_witness :
  let d := {| collections := ∅; next_oid := 0%N;
              down := Some "connection refused" |} in
  down d = Some "connection refused" /\
  dispatch demo (Api POST_api_seed) noon (Some d) =
    (Failure 500 "Internal Server Error", Some d) /\
  dispatch demo (Api GET_api_metrics) noon (Some d) =
    (Failure 500 "Internal Server Error", Some d) /\
  dispatch demo GET_api_analytics noon (Some d) =
    (Failure 500 "Internal Server Error", Some d).
Proof.
  intros d. split; [reflexivity|].
  exact (unreachable_store_is_server_error demo noon d "connection refused" eq_refl).
Defined.

Lemma created_candidate_can_be_moved_witness :
  let body := [("name", VStr "Ann"); ("email", VStr "ann@example.com")] in
  healthy empty_db /\
  ObjectId demo (oid_str (next_oid empty_db)) = Some (next_oid empty_db) /\
  exists p id d1 d2,
    model_validate demo CandidateIn (VDict body) = inr p /\
    app demo (POST_api_candidates (VDict body)) noon (Some empty_db) =
      (OK (id_body id), Some d1) /\
    app demo (POST_api_candidates_stage id (VDict [("stage", VStr "screening")]))
      noon (Some d1) = (OK ok_status, Some d2) /\
    coll d2 "candidate" =
      coll empty_db "candidate" ++
      [{| _id := next_oid empty_db;
          fields := dict_update [("stage", VStr "screening");
                                 ("updated_at", VDate (noon 0%nat))] p |}].
Proof.
  intros body.
  assert (ObjectId demo (oid_str (next_oid empty_db)) = Some (next_oid empty_db))
    as Hid by (vm_compute; reflexivity).
  split; [exact healthy_empty_db|]. split; [exact Hid|].
  destruct (model_validate demo CandidateIn (VDict body)) as [errs|p] eqn:Hm;
    [discriminate Hm|].
  destruct (created_candidate_can_be_moved demo body p "screening" noon noon
              empty_db healthy_empty_db Hm Hid)
    as (id & d1 & d2 & H1 & H2 & H3 & _).
  exists p, id, d1, d2. exact (conj eq_refl (conj H1 (conj H2 H3))).
Defined.

Lemma seeded_interview_refers_to_candidate_witness :
  down empty_db = None /\ coll empty_db "interview" = [] /\
  exists d1,
    app demo POST_api_seed noon (Some empty_db) = (OK ok_status, Some d1) /\
    match List.find (matches (QField "stage" (CEq "interview")))
            (coll d1 "candidate") with
    | Some c =>
        In c (coll d1 "candidate") /\
        exists i,
          coll d1 "interview" = [i] /\
          dict_get "candidate_id" (fields i) = Some (VStr (oid_str (_id c))) /\
          dict_get "candidate_name" (fields i) = Some (attr (fields c) "name") /\
          dict_get "status" (fields i) = Some (VStr "scheduled")
    | None => coll d1 "interview" = []
    end.
Proof.
  split; [reflexivity|]. split; [exact (coll_empty_db "interview")|].
  exact (seeded_interview_refers_to_candidate demo noon empty_db eq_refl
           (coll_empty_db "interview")).
Defined.

Lemma create_appends_one_document_witness :
  let r := app demo (create_request offer EmptyString
                       (VDict [ ("candidate_id", VStr "c1");
                                ("candidate_name", VStr "Ann");
                                ("role", VStr "QA");
                                ("proposed_salary", VStr "100k") ]))
             noon (Some (seeded noon empty_db)) in
  exists d', snd r = Some d' /\
    ((d' = seeded noon empty_db /\ status_of (fst r) <> 200%Z) \/
     (exists x,
        fst r = OK (id_body (oid_str (_id x))) /\
        coll d' (collection_of offer) =
          coll (seeded noon empty_db) (collection_of offer) ++ [x] /\
        forall c, c <> collection_of offer ->
          coll d' c = coll (seeded noon empty_db) c)).
Proof.
  intros r.
  exact (create_appends_one_document demo offer EmptyString _ noon
           (seeded noon empty_db) (fst r) (snd r) (surjective_pairing r)).
Defined.

Lemma reposting_validates_to_itself_witness :
  In job [job; candidate; offer; onboardingtask; message] /\
  exists p,
    model_validate demo (request_model job) (VDict qa_job) = inr p /\
    model_validate demo (request_model job) (VDict p) = inr p /\
    model_validate demo (request_model job)
      (VDict (dict_set "id" (VStr "000000000000000000000000") p)) = inr p.
Proof.
  assert (In job [job; candidate; offer; onboardingtask; message]) as He by (by left).
  split; [exact He|].
  destruct (model_validate demo (request_model job) (VDict qa_job)) as [errs|p] eqn:Hm;
    [discriminate Hm|].
  exists p. split; [reflexivity|].
  exact (reposting_validates_to_itself demo job qa_job p _ He Hm).
Defined.
